(** * Customer Health Intelligence Dashboard: the health scoring engine

    A shallow embedding of [backend/server.py]:
    - [CustomerHealthScorer.calculate_health_score] and
      [CustomerHealthScorer._days_since_last_order];
    - the per-customer body of [get_churn_predictions] (key factors,
      recommendations and churn probability);
    - the bodies of [get_customers], [get_dashboard_metrics] and
      [get_customer_details], given what the database answered;
    - the customer built by [DataGenerator.generate_sample_data], given its
      random draws.

    Conventions of the embedding.
    - Python values are the inductive [pyval]; a customer [Dict] is a
      [gmap string pyval], and [d.get(k, default)] is [dict_get].
    - Python [float]s are idealised as exact rationals ([Q]); [int]s are [Z].
      A number keeps its Python tag ([NInt] or [NFloat]) and is compared by
      its value [Qof], as Python's [==], [<] and [>=] do.
    - [round(x, 2)] is rounding to the nearest hundredth, ties to even.
    - Exceptions are the [Raise] results of the error monad [result]; the
      [try ... except Exception] of [calculate_health_score] is a match on it.
    - [datetime.now()] is the parameter [now]; [datetime.fromisoformat] is a
      parameter too (it is the standard library's, not this repository's). *)

From Stdlib Require Import ZArith QArith Qround Lqa Lia.
From stdpp Require Import gmap strings list.

Local Open Scope Z_scope.

(** ** Numbers *)

Inductive num :=
  | NInt (n : Z)
  | NFloat (q : Q).

Definition Qof (x : num) : Q :=
  match x with
  | NInt n => inject_Z n
  | NFloat q => q
  end.

Definition Qltb (a b : Q) : bool :=
  match Qcompare a b with Lt => true | _ => false end.

Definition num_add (a b : num) : num :=
  match a, b with
  | NInt x, NInt y => NInt (x + y)
  | _, _ => NFloat (Qof a + Qof b)
  end.

Definition num_sub (a b : num) : num :=
  match a, b with
  | NInt x, NInt y => NInt (x - y)
  | _, _ => NFloat (Qof a - Qof b)
  end.

Definition num_mul (a b : num) : num :=
  match a, b with
  | NInt x, NInt y => NInt (x * y)
  | _, _ => NFloat (Qof a * Qof b)
  end.

(** [a < b] and [a >= b] on numbers. *)
Definition num_lt (a b : num) : bool := Qltb (Qof a) (Qof b).
Definition num_ge (a b : num) : bool := negb (num_lt a b).

(** [max(a, b)] keeps its first argument unless the second is greater;
    [min(a, b)] keeps its first argument unless the second is smaller. *)
Definition num_max (a b : num) : num := if num_lt a b then b else a.
Definition num_min (a b : num) : num := if num_lt b a then b else a.

(** Nearest integer, ties to the even neighbour. *)
Definition round_half_even (q : Q) : Z :=
  let f := Qfloor q in
  match Qcompare (q - inject_Z f) (1 # 2) with
  | Lt => f
  | Gt => f + 1
  | Eq => if Z.even f then f else f + 1
  end.

(** [round(x, 2)]: an [int] is returned unchanged, a [float] is rounded to
    the nearest hundredth. *)
Definition round2Q (q : Q) : Q :=
  Qred (inject_Z (round_half_even (q * 100)) / 100).

Definition round2 (x : num) : num :=
  match x with
  | NInt n => NInt n
  | NFloat q => NFloat (round2Q q)
  end.

(** ** Exceptions *)

Inductive exn :=
  | TypeError
  | ValueError
  | KeyError
  | ZeroDivisionError.

Inductive result (A : Type) :=
  | Ok (a : A)
  | Raise (e : exn).
Arguments Ok {A} a.
Arguments Raise {A} e.

#[export] Instance result_ret : MRet result := fun _ a => Ok a.
#[export] Instance result_bind : MBind result := fun _ _ f m =>
  match m with
  | Ok a => f a
  | Raise e => Raise e
  end.

(** ** Python values *)

(** A [datetime]: wall-clock microseconds counted from a fixed midnight, and
    the UTC offset when the value is timezone-aware ([tzinfo] is not [None]).
    A [date] is its day number from the same origin. *)
Record datetime := mk_datetime {
  wall : Z;
  tzinfo : option Z
}.

Definition day_us : Z := 86400000000.

Inductive pyval :=
  | PNone
  | PBool (b : bool)
  | PNum (n : num)
  | PStr (s : string)
  | PDate (ordinal : Z)
  | PDateTime (t : datetime).

(** Truth value of [v] in [if v] and [not v]. *)
Definition truthy (v : pyval) : bool :=
  match v with
  | PNone => false
  | PBool b => b
  | PNum x => negb (Qeq_bool (Qof x) 0)
  | PStr s => negb (String.eqb s "")
  | PDate _ => true
  | PDateTime _ => true
  end.

(** The numeric reading of a value: [bool] is a subclass of [int]. *)
Definition as_num (v : pyval) : option num :=
  match v with
  | PBool b => Some (NInt (if b then 1 else 0))
  | PNum x => Some x
  | _ => None
  end.

Fixpoint str_repeat (s : string) (k : nat) : string :=
  match k with
  | O => ""
  | S k' => s +:+ str_repeat s k'
  end.

(** [v * x] for a number [x]: numbers multiply, [str * int] repeats the
    string, everything else is a [TypeError]. *)
Definition py_mul (v : pyval) (x : num) : result pyval :=
  match as_num v with
  | Some a => Ok (PNum (num_mul a x))
  | None =>
      match v, x with
      | PStr s, NInt k => Ok (PStr (str_repeat s (Z.to_nat k)))
      | _, _ => Raise TypeError
      end
  end.

(** [a / b]: true division, always a [float]. *)
Definition num_truediv (a b : num) : result num :=
  if Qeq_bool (Qof b) 0 then Raise ZeroDivisionError
  else Ok (NFloat (Qof a / Qof b)).

(** [v / x] for a number [x]. *)
Definition py_truediv (v : pyval) (x : num) : result num :=
  match as_num v with
  | Some a => num_truediv a x
  | None => Raise TypeError
  end.

(** [a - v] and [a + v] for a number [a]. *)
Definition py_rsub (a : num) (v : pyval) : result num :=
  match as_num v with
  | Some b => Ok (num_sub a b)
  | None => Raise TypeError
  end.

Definition py_radd (a : num) (v : pyval) : result num :=
  match as_num v with
  | Some b => Ok (num_add a b)
  | None => Raise TypeError
  end.

(** [min(a, v)] for a number [a]: the comparison [v < a] fails on a value
    that is not a number. *)
Definition py_min (a : num) (v : pyval) : result num :=
  match as_num v with
  | Some b => Ok (num_min a b)
  | None => Raise TypeError
  end.

(** [v < x] and [v > x] for a number [x]. *)
Definition py_lt (v : pyval) (x : num) : result bool :=
  match as_num v with
  | Some a => Ok (num_lt a x)
  | None => Raise TypeError
  end.

Definition py_gt (v : pyval) (x : num) : result bool :=
  match as_num v with
  | Some a => Ok (num_lt x a)
  | None => Raise TypeError
  end.

(** [round(v, 2)]. *)
Definition py_round2 (v : pyval) : result num :=
  match as_num v with
  | Some a => Ok (round2 a)
  | None => Raise TypeError
  end.

(** [d.get(k, default)] *)
Definition dict_get (d : gmap string pyval) (k : string) (dflt : pyval) : pyval :=
  default dflt (d !! k).

(** [d[k]] *)
Definition dict_item (d : gmap string pyval) (k : string) : result pyval :=
  match d !! k with
  | Some v => Ok v
  | None => Raise KeyError
  end.

(** [datetime.combine(x, datetime.min.time())]: midnight of the date of [x],
    naive; the time of day and the [tzinfo] of a [datetime] are dropped. *)
Definition combine_min (x : Z + datetime) : datetime :=
  match x with
  | inl ordinal => mk_datetime (ordinal * day_us) None
  | inr t => mk_datetime (wall t / day_us * day_us) None
  end.

(** [(datetime.now() - v).days]: only a naive [datetime] can be subtracted
    from the naive [now]; [timedelta.days] is the floor of the difference in
    days. *)
Definition days_until_now (now : Z) (v : pyval) : result Z :=
  match v with
  | PDateTime t =>
      match tzinfo t with
      | None => Ok ((now - wall t) / day_us)
      | Some _ => Raise TypeError
      end
  | _ => Raise TypeError
  end.

(** ** The health scoring engine ([CustomerHealthScorer]) *)

(** The dictionary returned by [calculate_health_score]. *)
Record assessment := mk_assessment {
  health_score : num;
  churn_risk : string;
  lifetime_value : num;
  score_breakdown : gmap string num
}.

(** The risk tier chosen by the [if]/[elif]/[else] chain on [total_score]. *)
Definition risk_tier (total_score : num) : string :=
  if num_ge total_score (NInt 70) then "Low"
  else if num_ge total_score (NInt 40) then "Medium"
  else "High".

(** The assessment of the [except] branch. *)
Definition fallback : assessment :=
  mk_assessment (NInt 0) "High" (NInt 0) ∅.

(** The default [0] of [customer_data.get(k, 0)]. *)
Definition int0 : pyval := PNum (NInt 0).

Section Scorer.

(** [datetime.fromisoformat]: [None] stands for its [ValueError]. *)
Variable fromisoformat : string -> option datetime.
(** [datetime.now()], a naive wall-clock instant in microseconds. *)
Variable now : Z.

Definition _days_since_last_order (last_order_date : pyval) : result Z :=
  if negb (truthy last_order_date) then Ok 365
  else
    match last_order_date with
    | PStr s =>
        match fromisoformat s with
        | Some t => days_until_now now (PDateTime t)
        | None => Raise ValueError
        end
    | PDate o => days_until_now now (PDateTime (combine_min (inl o)))
    | PDateTime t => days_until_now now (PDateTime (combine_min (inr t)))
    | v => days_until_now now v
    end.

(** [max(0, 30 - (last_order_days / 30) * 30)] *)
Definition recency_score (last_order_days : Z) : result num :=
  r ← num_truediv (NInt last_order_days) (NInt 30);
  Ok (num_max (NInt 0) (num_sub (NInt 30) (num_mul r (NInt 30)))).

(** [min(25, customer_data.get('total_orders', 0) * 2)] *)
Definition frequency_score (customer_data : gmap string pyval) : result num :=
  t ← py_mul (dict_get customer_data "total_orders" int0) (NInt 2);
  py_min (NInt 25) t.

(** [min(25, customer_data.get('total_spent', 0) / 100)] *)
Definition monetary_score (customer_data : gmap string pyval) : result num :=
  t ← py_truediv (dict_get customer_data "total_spent" int0) (NInt 100);
  py_min (NInt 25) (PNum t).

(** [max(0, 10 - support_tickets)] *)
Definition support_score (customer_data : gmap string pyval) : result num :=
  let support_tickets := dict_get customer_data "support_tickets" int0 in
  t ← py_rsub (NInt 10) support_tickets;
  Ok (num_max (NInt 0) t).

(** [customer_data.get('avg_rating', 0) * 2] *)
Definition rating_score (customer_data : gmap string pyval) : result pyval :=
  py_mul (dict_get customer_data "avg_rating" int0) (NInt 2).

(** [recency_score + frequency_score + monetary_score + support_score +
    rating_score], before any rounding. *)
Definition total_score_of (last_order_days : Z)
    (customer_data : gmap string pyval) : result num :=
  recency ← recency_score last_order_days;
  frequency ← frequency_score customer_data;
  monetary ← monetary_score customer_data;
  support ← support_score customer_data;
  rating ← rating_score customer_data;
  py_radd (num_add (num_add (num_add recency frequency) monetary) support) rating.

(** The [try] block once [last_order_days] is known. *)
Definition score_from_days (last_order_days : Z)
    (customer_data : gmap string pyval) : result assessment :=
  recency ← recency_score last_order_days;
  frequency ← frequency_score customer_data;
  monetary ← monetary_score customer_data;
  support ← support_score customer_data;
  rating ← rating_score customer_data;
  total_score ←
    py_radd (num_add (num_add (num_add recency frequency) monetary) support) rating;
  let churn_risk := risk_tier total_score in
  ratio ← num_truediv total_score (NInt 100);
  lifetime_value ←
    py_mul (dict_get customer_data "total_spent" int0) (num_add (NInt 1) ratio);
  lifetime_rounded ← py_round2 lifetime_value;
  rating_rounded ← py_round2 rating;
  Ok (mk_assessment (round2 total_score) churn_risk lifetime_rounded
        (<["recency" := round2 recency]>
           (<["frequency" := round2 frequency]>
              (<["monetary" := round2 monetary]>
                 (<["support" := round2 support]>
                    (<["rating" := rating_rounded]> ∅)))))).

(** The whole [try] block. *)
Definition score_body (customer_data : gmap string pyval) : result assessment :=
  last_order_days ←
    _days_since_last_order (dict_get customer_data "last_order_date" PNone);
  score_from_days last_order_days customer_data.

(** [try: ... except Exception: ...] *)
Definition calculate_health_score (customer_data : gmap string pyval) : assessment :=
  match score_body customer_data with
  | Ok r => r
  | Raise _ => fallback
  end.

End Scorer.

(** ** The churn explainer (loop body of [get_churn_predictions]) *)


(** [x in key_factors] *)
Definition str_in (x : string) (l : list string) : bool :=
  existsb (String.eqb x) l.

(** [l.append(x)] when [b] holds. *)
Definition append_if (b : bool) (x : string) (l : list string) : list string :=
  if b then l ++ [x] else l.

Section Explainer.

Variable now : Z.

(** The four [if] statements that fill [key_factors]. *)
Definition key_factors_of (customer : gmap string pyval) : result (list string) :=
  let key_factors := [] in
  b1 ← py_lt (dict_get customer "total_orders" int0) (NInt 2);
  let key_factors := append_if b1 "Low purchase frequency" key_factors in
  b2 ← py_gt (dict_get customer "support_tickets" int0) (NInt 3);
  let key_factors := append_if b2 "High support ticket volume" key_factors in
  b3 ← py_lt (dict_get customer "avg_rating" int0) (NInt 3);
  let key_factors := append_if b3 "Low product satisfaction" key_factors in
  if truthy (dict_get customer "last_order_date" PNone) then
    last_order_date ← dict_item customer "last_order_date";
    days_since ← days_until_now now last_order_date;
    Ok (append_if (90 <? days_since) "No recent purchases" key_factors)
  else Ok key_factors.

(** The four [if] statements that fill [recommendations]. *)
Definition recommendations_of (key_factors : list string) : list string :=
  let recommendations := [] in
  let recommendations :=
    append_if (str_in "Low purchase frequency" key_factors)
      "Send personalized product recommendations" recommendations in
  let recommendations :=
    append_if (str_in "High support ticket volume" key_factors)
      "Assign dedicated account manager" recommendations in
  let recommendations :=
    append_if (str_in "Low product satisfaction" key_factors)
      "Offer product training or alternatives" recommendations in
  append_if (str_in "No recent purchases" key_factors)
    "Send re-engagement campaign with discount" recommendations.

(** [round((100 - customer.get('health_score', 0)) / 100, 2)] *)
Definition churn_probability_of (customer : gmap string pyval) : result num :=
  t ← py_rsub (NInt 100) (dict_get customer "health_score" int0);
  r ← num_truediv t (NInt 100);
  Ok (round2 r).



End Explainer.

Local Open Scope Q_scope.

(** ** The [try] block on numeric inputs *)

(** The numeric reading of [customer_data.get(k, 0)]. *)
Definition field (customer_data : gmap string pyval) (k : string) : option num :=
  as_num (dict_get customer_data k int0).

(** The sub-scores, the total, the lifetime value and the breakdown as
    functions of the days since the last order and of the four numeric inputs;
    [sub_scores_numeric] and [score_from_days_numeric] show that the [try]
    block computes them. *)
Definition recency_of (last_order_days : Z) : num :=
  num_max (NInt 0)
    (num_sub (NInt 30) (num_mul (NFloat (inject_Z last_order_days / 30)) (NInt 30))).
Definition frequency_of (total_orders : num) : num :=
  num_min (NInt 25) (num_mul total_orders (NInt 2)).
Definition monetary_of (total_spent : num) : num :=
  num_min (NInt 25) (NFloat (Qof total_spent / 100)).
Definition support_of (support_tickets : num) : num :=
  num_max (NInt 0) (num_sub (NInt 10) support_tickets).
Definition rating_of (avg_rating : num) : num :=
  num_mul avg_rating (NInt 2).

Definition total_of (days : Z) (n s t a : num) : num :=
  num_add (num_add (num_add (num_add (recency_of days) (frequency_of n))
                      (monetary_of s)) (support_of t)) (rating_of a).

Definition lifetime_of (s total : num) : num :=
  num_mul s (num_add (NInt 1) (NFloat (Qof total / 100))).

Definition breakdown_of (days : Z) (n s t a : num) : gmap string num :=
  <["recency" := round2 (recency_of days)]>
    (<["frequency" := round2 (frequency_of n)]>
       (<["monetary" := round2 (monetary_of s)]>
          (<["support" := round2 (support_of t)]>
             (<["rating" := round2 (rating_of a)]> ∅)))).

Definition assessment_of (days : Z) (n s t a : num) : assessment :=
  let total := total_of days n s t a in
  mk_assessment (round2 total) (risk_tier total) (round2 (lifetime_of s total))
    (breakdown_of days n s t a).

(** The four numeric inputs of a snapshot. *)
Definition numeric_inputs (cd : gmap string pyval) (n s t a : num) : Prop :=
  field cd "total_orders" = Some n /\ field cd "total_spent" = Some s /\
  field cd "support_tickets" = Some t /\ field cd "avg_rating" = Some a.

(** ** Vocabulary of the statements *)


(** A sub-score and its rounded breakdown entry both lie in [[lo, hi]]. *)
Definition sub_score_between (lo hi : Z) (x : num) : Prop :=
  (inject_Z lo <= Qof x /\ Qof x <= inject_Z hi) /\
  (inject_Z lo <= Qof (round2 x) /\ Qof (round2 x) <= inject_Z hi).

(** The fixed table of factor labels and their recommendations, in the order
    of the four [if] statements. *)
Definition factor_table : list (string * string) :=
  [ ("Low purchase frequency", "Send personalized product recommendations");
    ("High support ticket volume", "Assign dedicated account manager");
    ("Low product satisfaction", "Offer product training or alternatives");
    ("No recent purchases", "Send re-engagement campaign with discount") ].

(** The four triggers, in table order; [days] is the age of the last order
    when there is one. *)
Definition triggers (total_orders support_tickets avg_rating : num)
    (days : option Z) : list bool :=
  [ num_lt total_orders (NInt 2);
    num_lt (NInt 3) support_tickets;
    num_lt avg_rating (NInt 3);
    match days with Some d => (90 <? d)%Z | None => false end ].

(** The rows of the table whose trigger fired, in table order. *)
Definition triggered (bs : list bool) : list (string * string) :=
  map snd (List.filter fst (combine bs factor_table)).


(** The last order of a stored customer record: absent (a falsy value), or a
    naive [datetime], [days] being its age. *)
Definition last_order_age (now : Z) (customer : gmap string pyval)
    (days : option Z) : Prop :=
  (truthy (dict_get customer "last_order_date" PNone) = false /\ days = None) \/
  (exists t, customer !! "last_order_date" = Some (PDateTime t) /\
     tzinfo t = None /\ days = Some ((now - wall t) / day_us)%Z).


(** ** Sample inputs *)

(** A stand-in for [datetime.fromisoformat] that knows two literals, a date
    (parsed to a naive [datetime]) and an instant with a UTC offset (parsed to
    a timezone-aware one); wall-clock time is counted from 1970-01-01. *)
Definition sample_fromisoformat (s : string) : option datetime :=
  if String.eqb s "1970-01-02" then Some (mk_datetime day_us None)
  else if String.eqb s "1970-01-02T00:00:00+00:00" then Some (mk_datetime day_us (Some 0%Z))
  else None.

(** Noon of day 20000. *)
Definition sample_now : Z := 20000 * day_us + 43200000000.

(** Ordered today, 5 orders, 1999.60 spent, no ticket, no rating: the total
    score is 69.996. *)
Definition boundary_customer : gmap string pyval :=
  {[ "last_order_date" := PDateTime (mk_datetime sample_now None);
     "total_orders" := PNum (NInt 5);
     "total_spent" := PNum (NFloat (19996 # 10));
     "support_tickets" := PNum (NInt 0);
     "avg_rating" := PNum (NInt 0) ]}.

(** Scenario A of the specification: never ordered, all counters 0. *)
Definition scenario_A : gmap string pyval :=
  {[ "last_order_date" := PNone;
     "total_orders" := PNum (NInt 0);
     "total_spent" := PNum (NInt 0);
     "support_tickets" := PNum (NInt 0);
     "avg_rating" := PNum (NInt 0) ]}.


(** Scenario B with a last order date that is not in ISO format. *)
Definition malformed_date_customer : gmap string pyval :=
  {[ "last_order_date" := PStr "yesterday";
     "total_orders" := PNum (NInt 20);
     "total_spent" := PNum (NInt 5000);
     "support_tickets" := PNum (NInt 0);
     "avg_rating" := PNum (NInt 5) ]}.

(** Scenario B of the specification: ordered today, 20 orders, 5000 spent,
    no ticket, rating 5. *)
Definition scenario_B : gmap string pyval :=
  {[ "last_order_date" := PDateTime (mk_datetime sample_now None);
     "total_orders" := PNum (NInt 20);
     "total_spent" := PNum (NInt 5000);
     "support_tickets" := PNum (NInt 0);
     "avg_rating" := PNum (NInt 5) ]}.

(** Noon of the next day: a future-dated last order. *)
Definition future_customer : gmap string pyval :=
  {[ "last_order_date" := PDateTime (mk_datetime (sample_now + day_us) None);
     "total_orders" := PNum (NInt 1);
     "total_spent" := PNum (NInt 50);
     "support_tickets" := PNum (NInt 0);
     "avg_rating" := PNum (NInt 4) ]}.

(** Scenario C of the specification: one order, five tickets, rating 2, last
    order 120 days ago. *)
Definition scenario_C : gmap string pyval :=
  {[ "customer_id" := PStr "c-1"; "name" := PStr "Ada";
     "total_orders" := PNum (NInt 1);
     "support_tickets" := PNum (NInt 5);
     "avg_rating" := PNum (NInt 2);
     "last_order_date" := PDateTime (mk_datetime (sample_now - 120 * day_us) None);
     "health_score" := PNum (NFloat (125 # 10)) ]}.

(** ** Further vocabulary *)


(** The inputs the data model allows: an order dated today or earlier,
    non-negative counts and amounts, a rating between 0 and 5. *)
Definition in_data_model (days : Z) (n s t a : num) : Prop :=
  (0 <= days)%Z /\ 0 <= Qof n /\ 0 <= Qof s /\ 0 <= Qof t /\
  0 <= Qof a /\ Qof a <= 5.

(** A value the explainer can subtract from [datetime.now()]. *)
Definition naive_datetime (v : pyval) : Prop :=
  exists t, v = PDateTime t /\ tzinfo t = None.

(** ** The dashboard metrics ([get_dashboard_metrics]) *)

Record DashboardMetrics := mk_metrics {
  total_customers : Z;
  high_risk_customers : Z;
  medium_risk_customers : Z;
  low_risk_customers : Z;
  total_revenue : num;
  avg_lifetime_value : num;
  churn_rate : num
}.

(** [agg[0][k] if agg else 0] *)
Definition first_or_zero (agg : list (gmap string pyval)) (k : string) : result pyval :=
  match agg with
  | [] => Ok int0
  | row :: _ => dict_item row k
  end.

(** The body of the handler, given what the database answered: the four
    [count_documents] results and the list [agg] returned by the [$group]
    aggregation ([result] in the source).  A [Raise] stands for the
    [HTTPException] the handler turns any exception into. *)
Definition get_dashboard_metrics (total high_risk medium_risk low_risk : Z)
    (agg : list (gmap string pyval)) : result DashboardMetrics :=
  revenue ← first_or_zero agg "total_revenue";
  avg ← first_or_zero agg "avg_lifetime_value";
  rate ←
    (if (0 <? total)%Z then
       q ← num_truediv (NInt high_risk) (NInt total);
       Ok (num_mul q (NInt 100))
     else Ok (NInt 0));
  revenue_rounded ← py_round2 revenue;
  avg_rounded ← py_round2 avg;
  Ok (mk_metrics total high_risk medium_risk low_risk revenue_rounded avg_rounded
        (round2 rate)).

(** ** The customer list ([get_customers]) *)

Record CustomerHealthResponse := mk_response {
  resp_customer_id : pyval;
  resp_name : pyval;
  resp_email : pyval;
  resp_health_score : pyval;
  resp_churn_risk : pyval;
  resp_lifetime_value : pyval;
  resp_total_orders : pyval;
  resp_total_spent : pyval;
  resp_last_activity : pyval;
  resp_customer_tier : pyval;
  resp_region : pyval
}.

(** The arguments of the [CustomerHealthResponse(...)] call of one iteration,
    evaluated in the order they are written.  The validation pydantic then
    applies to them is not part of the embedding. *)
Definition customer_response (customer : gmap string pyval)
    : result CustomerHealthResponse :=
  cid ← dict_item customer "customer_id";
  cname ← dict_item customer "name";
  email ← dict_item customer "email";
  let hs := dict_get customer "health_score" int0 in
  let risk := dict_get customer "churn_risk" (PStr "Low") in
  let ltv := dict_get customer "lifetime_value" int0 in
  let orders := dict_get customer "total_orders" int0 in
  let spent := dict_get customer "total_spent" int0 in
  let last := dict_get customer "last_order_date" PNone in
  tier ← dict_item customer "customer_tier";
  region ← dict_item customer "region";
  Ok (mk_response cid cname email hs risk ltv orders spent last tier region).



(** ** The sample-data generator ([DataGenerator.generate_sample_data]) *)

(** The generator is random; its draws are the inputs of the embedding.  One
    order takes a [uuid4], a date from [fake.date_between] (a day number), an
    amount from [np.random.lognormal], an item count and a status. *)
Record order_draw := mk_order_draw {
  draw_order_id : string;
  draw_order_date : Z;
  draw_amount : Q;
  draw_items : Z;
  draw_status : string
}.

(** The [order] dictionary. *)
Record order := mk_order {
  order_id : string;
  order_customer_id : string;
  order_date : datetime;
  total_amount : num;
  items_count : Z;
  status : string
}.

(** The draws behind one customer: identity fields, registration date, tier
    and region, the orders, the number of tickets ([np.random.poisson(1)])
    and the ratings of the feedback items ([np.random.randint(1, 6)]). *)
Record customer_draw := mk_customer_draw {
  draw_customer_id : string;
  draw_name : string;
  draw_email : string;
  draw_phone : string;
  draw_registration : Z;
  draw_tier : string;
  draw_region : string;
  draw_orders : list order_draw;
  draw_tickets : Z;
  draw_ratings : list Z
}.

(** The [order] built in one iteration: the date is converted with
    [datetime.combine(order_date, datetime.min.time())], the amount is
    rounded to 2 decimals. *)
Definition make_order (cid : string) (d : order_draw) : order :=
  mk_order (draw_order_id d) cid (combine_min (inl (draw_order_date d)))
    (round2 (NFloat (draw_amount d))) (draw_items d) (draw_status d).

Definition is_completed (o : order) : bool := String.eqb (status o) "Completed".

(** The loop over the orders: [customer_orders] and [total_spent]. *)
Definition order_loop (cid : string) (draws : list order_draw) : list order * num :=
  fold_left
    (fun '(customer_orders, total_spent) d =>
       let order := make_order cid d in
       let total_spent :=
         if is_completed order then num_add total_spent (total_amount order)
         else total_spent in
       (customer_orders ++ [order], total_spent))
    draws ([], NInt 0).

(** [max(...)] of naive datetimes: the first greatest one. *)
Definition datetime_max (first : datetime) (rest : list datetime) : datetime :=
  fold_left (fun m x => if (wall m <? wall x)%Z then x else m) rest first.

Definition Zsum (l : list Z) : Z := fold_right Z.add 0%Z l.

(** [round(np.mean(ratings), 2) if ratings else 0] *)
Definition avg_rating_of (ratings : list Z) : num :=
  match ratings with
  | [] => NInt 0
  | _ :: _ =>
      round2 (NFloat (inject_Z (Zsum ratings) / inject_Z (Z.of_nat (length ratings))))
  end.

(** The [customer] dictionary just before it is scored. *)
Definition generated_customer (dr : customer_draw) : gmap string pyval :=
  let customer : gmap string pyval :=
    {[ "customer_id" := PStr (draw_customer_id dr);
       "name" := PStr (draw_name dr);
       "email" := PStr (draw_email dr);
       "phone" := PStr (draw_phone dr);
       "registration_date" := PDate (draw_registration dr);
       "customer_tier" := PStr (draw_tier dr);
       "region" := PStr (draw_region dr);
       "total_orders" := PNum (NInt 0);
       "total_spent" := PNum (NFloat 0);
       "last_order_date" := PNone;
       "support_tickets" := PNum (NInt 0);
       "avg_rating" := PNum (NFloat 0) ]} in
  let '(customer_orders, total_spent) :=
    order_loop (draw_customer_id dr) (draw_orders dr) in
  let customer :=
    <["total_orders" :=
        PNum (NInt (Z.of_nat (length (List.filter is_completed customer_orders))))]>
      customer in
  let customer := <["total_spent" := PNum (round2 total_spent)]> customer in
  let customer :=
    match map order_date customer_orders with
    | [] => customer
    | first :: rest =>
        <["last_order_date" := PDateTime (datetime_max first rest)]> customer
    end in
  let customer := <["support_tickets" := PNum (NInt (draw_tickets dr))]> customer in
  <["avg_rating" := PNum (avg_rating_of (draw_ratings dr))]> customer.

(** A value of a scored customer: a plain value, or the nested
    [score_breakdown] dictionary. *)
Inductive docval :=
  | DVal (v : pyval)
  | DDict (m : gmap string num).

(** The dictionary [calculate_health_score] returns, as it is merged into
    the customer. *)
Definition health_data (h : assessment) : gmap string docval :=
  {[ "health_score" := DVal (PNum (health_score h));
     "churn_risk" := DVal (PStr (churn_risk h));
     "lifetime_value" := DVal (PNum (lifetime_value h));
     "score_breakdown" := DDict (score_breakdown h) ]}.

(** [d.update(u)]: the entries of [u] replace those of [d]. *)
Definition dict_update {V} (d u : gmap string V) : gmap string V := u ∪ d.

(** The customer appended to [customers]: scored, then updated with the
    assessment. *)
Definition scored_customer (fromisoformat : string -> option datetime) (now : Z)
    (dr : customer_draw) : gmap string docval :=
  let customer := generated_customer dr in
  let health_data := health_data (calculate_health_score fromisoformat now customer) in
  dict_update (DVal <$> customer) health_data.

(** The plain values of a document, which is all the scorer and the handlers
    read. *)
Definition scalars (doc : gmap string docval) : gmap string pyval :=
  omap (fun x => match x with DVal v => Some v | DDict _ => None end) doc.

(** What the generator's distributions guarantee at the instant [now]: order
    dates not after today, positive amounts, a non-negative number of
    tickets, ratings from 1 to 5. *)
Definition valid_draws (now : Z) (dr : customer_draw) : Prop :=
  Forall (fun d => (draw_order_date d <= now / day_us)%Z /\ 0 <= draw_amount d)
    (draw_orders dr) /\
  (0 <= draw_tickets dr)%Z /\
  Forall (fun x => (1 <= x <= 5)%Z) (draw_ratings dr).

(** Two orders, the later one cancelled; one ticket; ratings 4 and 5. *)
Definition sample_draw : customer_draw :=
  mk_customer_draw "c-7" "Grace" "grace@example.org" "555-0100" 19000 "Gold" "North"
    [ mk_order_draw "o-1" 19900 (8025 # 100) 2 "Completed";
      mk_order_draw "o-2" 19990 (1999 # 10) 1 "Cancelled" ]
    1 [4; 5]%Z.

(** The amount spent on the completed orders of a list, summed from the
    integer 0 in list order. *)
Definition completed_total (orders : list order) : num :=
  fold_left
    (fun total_spent o =>
       if is_completed o then num_add total_spent (total_amount o) else total_spent)
    orders (NInt 0).

(** ** The customer details ([get_customer_details]) *)

(** The outcome of a handler: the response body, or the status of the
    [HTTPException] it raises. *)
Inductive http_result (A : Type) :=
  | Http200 (body : A)
  | HttpError (status_code : Z).
Arguments Http200 {A} body.
Arguments HttpError {A} status_code.

Record customer_details (V : Type) := mk_details {
  details_customer : gmap string V;
  details_orders : list (gmap string V);
  details_support_tickets : list (gmap string V);
  details_feedback : list (gmap string V)
}.
Arguments mk_details {V} _ _ _ _.
Arguments details_customer {V} _.
Arguments details_orders {V} _.
Arguments details_support_tickets {V} _.
Arguments details_feedback {V} _.

(** [if '_id' in doc: del doc['_id']] *)
Definition strip_id {V} (doc : gmap string V) : gmap string V :=
  delete "_id" doc.

(** The body of the handler, given what the database answered: [found] is
    the result of [find_one] ([None] when there is no such customer), the
    three lists are the results of the [find] calls.  [not customer] holds
    for [None] and for an empty document. *)
Definition get_customer_details {V} (found : option (gmap string V))
    (orders tickets feedback : list (gmap string V))
    : http_result (customer_details V) :=
  match found with
  | None => HttpError 404
  | Some customer =>
      if bool_decide (dom customer = (∅ : gset string)) then HttpError 404
      else
        Http200 (mk_details (strip_id customer) (map strip_id orders)
                   (map strip_id tickets) (map strip_id feedback))
  end.

(** * Properties *)

(** ** Rounding *)

Lemma Qltb_lt a b : Qltb a b = true <-> a < b.
Proof. unfold Qltb. rewrite Qlt_alt. destruct (a ?= b); intuition congruence. Qed.

Lemma Qltb_ge a b : Qltb a b = false <-> b <= a.
Proof.
  rewrite <- not_true_iff_false, Qltb_lt. split; [apply Qnot_lt_le | apply Qle_not_lt].
Qed.

#[export] Instance round_half_even_proper : Proper (Qeq ==> eq) round_half_even.
Proof.
  intros x y Hxy. unfold round_half_even.
  rewrite (Qfloor_comp _ _ Hxy).
  assert (H : (x - inject_Z (Qfloor y) ?= 1 # 2) = (y - inject_Z (Qfloor y) ?= 1 # 2)).
  { apply Qcompare_comp; [rewrite Hxy|]; reflexivity. }
  now rewrite H.
Qed.

Lemma round_half_even_bounds q :
  (Qfloor q <= round_half_even q <= Qfloor q + 1)%Z.
Proof.
  unfold round_half_even.
  destruct (q - inject_Z (Qfloor q) ?= 1 # 2); [destruct (Z.even _)| |]; lia.
Qed.

Lemma round_half_even_mono q q' :
  q <= q' -> (round_half_even q <= round_half_even q')%Z.
Proof.
  intros Hle.
  pose proof (Qfloor_resp_le _ _ Hle) as Hf.
  destruct (Z.eq_dec (Qfloor q) (Qfloor q')) as [Heq|Hne].
  - unfold round_half_even. rewrite <- Heq.
    destruct (Qcompare_spec (q - inject_Z (Qfloor q)) (1 # 2)) as [H1|H1|H1];
      destruct (Qcompare_spec (q' - inject_Z (Qfloor q)) (1 # 2)) as [H2|H2|H2];
      try destruct (Z.even _); try lia; exfalso; lra.
  - pose proof (round_half_even_bounds q). pose proof (round_half_even_bounds q'). lia.
Qed.

Lemma round_half_even_Z n : round_half_even (inject_Z n) = n.
Proof.
  unfold round_half_even. rewrite Qfloor_Z.
  destruct (Qcompare_spec (inject_Z n - inject_Z n) (1 # 2)) as [H|H|H];
    try reflexivity; exfalso; lra.
Qed.

Lemma round2Q_eq q : round2Q q == inject_Z (round_half_even (q * 100)) / 100.
Proof. unfold round2Q. apply Qred_correct. Qed.

#[export] Instance round2Q_proper : Proper (Qeq ==> eq) round2Q.
Proof.
  intros x y Hxy. unfold round2Q. apply Qred_complete. now rewrite Hxy.
Qed.

Lemma round2Q_mono q q' : q <= q' -> round2Q q <= round2Q q'.
Proof.
  intros Hle. rewrite !round2Q_eq.
  assert (H : (round_half_even (q * 100) <= round_half_even (q' * 100))%Z).
  { apply round_half_even_mono. lra. }
  rewrite Zle_Qle in H. 
  apply Qmult_le_compat_r; [exact H|]. discriminate.
Qed.

Lemma round2Q_Z n : round2Q (inject_Z n) == inject_Z n.
Proof.
  rewrite round2Q_eq.
  assert (H : inject_Z n * 100 == inject_Z (n * 100)).
  { rewrite inject_Z_mult. reflexivity. }
  rewrite H, round_half_even_Z, inject_Z_mult. field.
Qed.

(** ** Numbers: order and arithmetic *)

Lemma Qof_num_add a b : Qof (num_add a b) == Qof a + Qof b.
Proof. destruct a, b; simpl; rewrite ?inject_Z_plus; reflexivity. Qed.

Lemma Qof_num_sub a b : Qof (num_sub a b) == Qof a - Qof b.
Proof.
  destruct a, b; simpl; unfold Z.sub;
    rewrite ?inject_Z_plus, ?inject_Z_opp; reflexivity.
Qed.

Lemma Qof_num_mul a b : Qof (num_mul a b) == Qof a * Qof b.
Proof. destruct a, b; simpl; rewrite ?inject_Z_mult; reflexivity. Qed.

Lemma num_lt_iff a b : num_lt a b = true <-> Qof a < Qof b.
Proof. apply Qltb_lt. Qed.

Lemma num_ge_iff a b : num_ge a b = true <-> Qof b <= Qof a.
Proof. unfold num_ge. rewrite negb_true_iff. apply Qltb_ge. Qed.

Lemma Qof_num_max a b :
  (Qof a < Qof b /\ num_max a b = b) \/ (Qof b <= Qof a /\ num_max a b = a).
Proof.
  unfold num_max, num_lt. destruct (Qltb (Qof a) (Qof b)) eqn:E.
  - left. split; [now apply Qltb_lt | reflexivity].
  - right. split; [now apply Qltb_ge | reflexivity].
Qed.

Lemma Qof_num_min a b :
  (Qof b < Qof a /\ num_min a b = b) \/ (Qof a <= Qof b /\ num_min a b = a).
Proof.
  unfold num_min, num_lt. destruct (Qltb (Qof b) (Qof a)) eqn:E.
  - left. split; [now apply Qltb_lt | reflexivity].
  - right. split; [now apply Qltb_ge | reflexivity].
Qed.



Lemma Qof_round2 x : Qof (round2 x) == round2Q (Qof x).
Proof. destruct x; simpl; [symmetry; apply round2Q_Z | reflexivity]. Qed.


Lemma round2_lower (n : Z) x : inject_Z n <= Qof x -> inject_Z n <= Qof (round2 x).
Proof.
  intros H. rewrite Qof_round2, <- (round2Q_Z n). now apply round2Q_mono.
Qed.

Lemma round2_upper (n : Z) x : Qof x <= inject_Z n -> Qof (round2 x) <= inject_Z n.
Proof.
  intros H. rewrite Qof_round2, <- (round2Q_Z n). now apply round2Q_mono.
Qed.

(** ** The risk tier *)

Lemma risk_tier_low t : 70 <= Qof t -> risk_tier t = "Low".
Proof.
  intros H. unfold risk_tier.
  replace (num_ge t (NInt 70)) with true; [reflexivity|].
  symmetry. now apply num_ge_iff.
Qed.

Lemma risk_tier_medium t : 40 <= Qof t -> Qof t < 70 -> risk_tier t = "Medium".
Proof.
  intros H1 H2. unfold risk_tier.
  replace (num_ge t (NInt 70)) with false.
  - replace (num_ge t (NInt 40)) with true; [reflexivity|].
    symmetry. now apply num_ge_iff.
  - symmetry. apply not_true_iff_false. rewrite num_ge_iff. cbn [Qof]. unfold inject_Z. lra.
Qed.

Lemma risk_tier_high t : Qof t < 40 -> risk_tier t = "High".
Proof.
  intros H. unfold risk_tier.
  replace (num_ge t (NInt 70)) with false.
  - replace (num_ge t (NInt 40)) with false; [reflexivity|].
    symmetry. apply not_true_iff_false. rewrite num_ge_iff. cbn [Qof]. unfold inject_Z. lra.
  - symmetry. apply not_true_iff_false. rewrite num_ge_iff. cbn [Qof]. unfold inject_Z. lra.
Qed.

(** ** Closed form of the [try] block on numeric inputs *)

Lemma recency_score_eq days : recency_score days = Ok (recency_of days).
Proof. reflexivity. Qed.

Lemma score_from_days_numeric days cd n s t a :
  numeric_inputs cd n s t a ->
  score_from_days days cd = Ok (assessment_of days n s t a).
Proof.
  unfold numeric_inputs, field. intros (Hn & Hs & Ht & Ha).
  unfold score_from_days, frequency_score, monetary_score, support_score,
    rating_score, py_mul, py_truediv, py_rsub.
  rewrite recency_score_eq, Hn, Hs, Ht, Ha. reflexivity.
Qed.


Lemma bind_Ok {A B} (m : result A) (k : A -> result B) (r : B) :
  m ≫= k = Ok r -> exists a, m = Ok a /\ k a = Ok r.
Proof. destruct m as [a|e]; [by exists a | discriminate]. Qed.

Lemma frequency_score_inv cd x :
  frequency_score cd = Ok x -> exists n, field cd "total_orders" = Some n.
Proof.
  unfold frequency_score, py_mul, field. intros H.
  destruct (dict_get cd "total_orders" int0); simpl in *; try discriminate; eauto.
Qed.

Lemma monetary_score_inv cd x :
  monetary_score cd = Ok x -> exists s, field cd "total_spent" = Some s.
Proof.
  unfold monetary_score, py_truediv, field. intros H.
  destruct (dict_get cd "total_spent" int0); simpl in *; try discriminate; eauto.
Qed.

Lemma support_score_inv cd x :
  support_score cd = Ok x -> exists t, field cd "support_tickets" = Some t.
Proof.
  unfold support_score, py_rsub, field. intros H.
  destruct (dict_get cd "support_tickets" int0); simpl in *; try discriminate; eauto.
Qed.

Lemma rating_score_inv cd v x total :
  rating_score cd = Ok v -> py_radd x v = Ok total ->
  exists a, field cd "avg_rating" = Some a.
Proof.
  unfold rating_score, py_mul, py_radd, field. intros H1 H2.
  destruct (dict_get cd "avg_rating" int0); simpl in *; try discriminate; eauto.
  destruct (Z.to_nat 2); simplify_eq; discriminate.
Qed.

Lemma total_score_of_inv days cd total :
  total_score_of days cd = Ok total ->
  exists n s t a, numeric_inputs cd n s t a.
Proof.
  unfold total_score_of. intros H.
  apply bind_Ok in H as (rec & _ & H).
  apply bind_Ok in H as (fr & (n & Hn)%frequency_score_inv & H).
  apply bind_Ok in H as (mo & (s & Hs)%monetary_score_inv & H).
  apply bind_Ok in H as (su & (t & Ht)%support_score_inv & H).
  apply bind_Ok in H as (ra & Hra & H).
  destruct (rating_score_inv _ _ _ _ Hra H) as (a & Ha).
  by exists n, s, t, a.
Qed.

Lemma score_from_days_inv days cd r :
  score_from_days days cd = Ok r ->
  exists n s t a, numeric_inputs cd n s t a /\ r = assessment_of days n s t a.
Proof.
  intros H.
  assert (exists total, total_score_of days cd = Ok total) as (total & Ht).
  { unfold score_from_days in H. unfold total_score_of.
    apply bind_Ok in H as (rec & -> & H).
    apply bind_Ok in H as (fr & -> & H).
    apply bind_Ok in H as (mo & -> & H).
    apply bind_Ok in H as (su & -> & H).
    apply bind_Ok in H as (ra & -> & H).
    apply bind_Ok in H as (total & Htot & H).
    unfold mbind, result_bind. eauto. }
  destruct (total_score_of_inv _ _ _ Ht) as (n & s & t & a & Hnum).
  exists n, s, t, a. split; [exact Hnum|].
  rewrite (score_from_days_numeric days cd n s t a Hnum) in H. congruence.
Qed.

Lemma sub_scores_numeric days cd n s t a :
  numeric_inputs cd n s t a ->
  recency_score days = Ok (recency_of days) /\
  frequency_score cd = Ok (frequency_of n) /\
  monetary_score cd = Ok (monetary_of s) /\
  support_score cd = Ok (support_of t) /\
  rating_score cd = Ok (PNum (rating_of a)).
Proof.
  unfold numeric_inputs, field. intros (Hn & Hs & Ht & Ha).
  unfold frequency_score, monetary_score, support_score, rating_score,
    py_mul, py_truediv, py_rsub.
  rewrite Hn, Hs, Ht, Ha. repeat split.
Qed.

Lemma dom_breakdown_of days n s t a :
  dom (breakdown_of days n s t a)
  = ({[ "recency"; "frequency"; "monetary"; "support"; "rating" ]} : gset string).
Proof.
  unfold breakdown_of. rewrite !dom_insert_L, dom_empty_L. set_solver.
Qed.

(** ** Shape of a successful run *)

Lemma score_body_inv f now cd r :
  score_body f now cd = Ok r ->
  exists days n s t a,
    _days_since_last_order f now (dict_get cd "last_order_date" PNone) = Ok days /\
    numeric_inputs cd n s t a /\ r = assessment_of days n s t a.
Proof.
  unfold score_body. intros H.
  apply bind_Ok in H as (days & Hd & H).
  apply score_from_days_inv in H as (n & s & t & a & Hnum & ->).
  by exists days, n, s, t, a.
Qed.

Lemma score_body_numeric f now cd days n s t a :
  _days_since_last_order f now (dict_get cd "last_order_date" PNone) = Ok days ->
  numeric_inputs cd n s t a ->
  score_body f now cd = Ok (assessment_of days n s t a).
Proof.
  intros Hd Hnum. unfold score_body. rewrite Hd.
  exact (score_from_days_numeric days cd n s t a Hnum).
Qed.

Lemma calculate_health_score_Ok f now cd r :
  score_body f now cd = Ok r -> calculate_health_score f now cd = r.
Proof. unfold calculate_health_score. by intros ->. Qed.

Lemma risk_tier_cases t :
  (70 <= Qof t /\ risk_tier t = "Low") \/
  (40 <= Qof t /\ Qof t < 70 /\ risk_tier t = "Medium") \/
  (Qof t < 40 /\ risk_tier t = "High").
Proof.
  destruct (Qlt_le_dec (Qof t) 70) as [H70|H70].
  - destruct (Qlt_le_dec (Qof t) 40) as [H40|H40].
    + right; right. split; [exact H40 | by apply risk_tier_high].
    + right; left. split; [exact H40|]. split; [exact H70 | by apply risk_tier_medium].
  - left. split; [exact H70 | by apply risk_tier_low].
Qed.

(** ** C1: the risk tier *)




(** Away from the two thresholds the returned (rounded) score decides the
    tier as well. *)
Lemma churn_risk_of_rounded_score f now cd r :
  score_body f now cd = Ok r ->
  (70 < Qof (health_score r) -> churn_risk r = "Low") /\
  (40 < Qof (health_score r) -> Qof (health_score r) < 70 -> churn_risk r = "Medium") /\
  (Qof (health_score r) < 40 -> churn_risk r = "High").
Proof.
  intros H. apply score_body_inv in H as (days & n & s & t & a & Hd & Hnum & ->).
  cbn [churn_risk health_score assessment_of].
  set (total := total_of days n s t a).
  pose proof (round2_lower 70 total) as L70. pose proof (round2_upper 70 total) as U70.
  pose proof (round2_lower 40 total) as L40. pose proof (round2_upper 40 total) as U40.
  unfold inject_Z in *.
  destruct (risk_tier_cases total) as [[H1 ->]|[(H1 & H2 & ->)|[H1 ->]]];
    repeat split; intros; try done; exfalso.
  - specialize (L70 H1). lra.
  - specialize (L70 H1). lra.
  - apply Qlt_le_weak in H2. specialize (U70 H2). lra.
  - specialize (L40 H1). lra.
  - apply Qlt_le_weak in H1. specialize (U40 H1). lra.
  - apply Qlt_le_weak in H1. specialize (U40 H1). lra.
Qed.

(** ** C2: the [except] branch *)

Lemma malformed_date_raises f now cd s :
  cd !! "last_order_date" = Some (PStr s) -> s <> "" -> f s = None ->
  score_body f now cd = Raise ValueError.
Proof.
  intros Hd Hs Hf. unfold score_body, dict_get. rewrite Hd.
  cbn [default from_option id]. unfold _days_since_last_order. cbn [truthy].
  destruct (String.eqb_spec s ""); [done|]. cbn [negb]. by rewrite Hf.
Qed.

(** C2: whenever the [try] block raises, the call returns the fixed
    safe-default assessment (health score 0, tier "High", lifetime value 0,
    empty breakdown), which is never the healthy tier. *)
Theorem exception_gives_safe_default f now cd e :
  score_body f now cd = Raise e ->
  let r := calculate_health_score f now cd in
  health_score r = NInt 0 /\ churn_risk r = "High" /\
  lifetime_value r = NInt 0 /\ score_breakdown r = ∅ /\ churn_risk r <> "Low".
Proof.
  intros H r. subst r. unfold calculate_health_score. rewrite H.
  repeat split. discriminate.
Qed.

Lemma exception_gives_safe_default_witness :
  score_body sample_fromisoformat sample_now malformed_date_customer = Raise ValueError /\
  let r := calculate_health_score sample_fromisoformat sample_now malformed_date_customer in
  health_score r = NInt 0 /\ churn_risk r = "High" /\
  lifetime_value r = NInt 0 /\ score_breakdown r = ∅ /\ churn_risk r <> "Low".
Proof.
  assert (H : score_body sample_fromisoformat sample_now malformed_date_customer
              = Raise ValueError) by (vm_compute; reflexivity).
  split; [exact H|].
  exact (exception_gives_safe_default _ _ _ _ H).
Defined.

(** ** C3: ranges of the sub-scores *)

Lemma sub_score_between_intro lo hi x :
  inject_Z lo <= Qof x -> Qof x <= inject_Z hi -> sub_score_between lo hi x.
Proof.
  intros H1 H2. repeat split; try assumption.
  - by apply round2_lower.
  - by apply round2_upper.
Qed.

Lemma recency_inner days :
  Qof (num_sub (NInt 30) (num_mul (NFloat (inject_Z days / 30)) (NInt 30)))
  == 30 - inject_Z days.
Proof. cbn [num_sub num_mul Qof]. unfold inject_Z at 1 3. field. Qed.

Lemma recency_of_nonneg days : 0 <= Qof (recency_of days).
Proof.
  unfold recency_of.
  destruct (Qof_num_max (NInt 0) (num_sub (NInt 30)
              (num_mul (NFloat (inject_Z days / 30)) (NInt 30))))
    as [[H ->]|[H ->]]; [|apply Qle_refl].
  apply Qlt_le_weak. exact H.
Qed.

Lemma recency_of_le_30 days : (0 <= days)%Z -> Qof (recency_of days) <= 30.
Proof.
  intros Hd. rewrite Zle_Qle in Hd. unfold recency_of.
  destruct (Qof_num_max (NInt 0) (num_sub (NInt 30)
              (num_mul (NFloat (inject_Z days / 30)) (NInt 30))))
    as [[H ->]|[H ->]]; [|discriminate].
  rewrite recency_inner. unfold inject_Z in Hd at 1. lra.
Qed.

Lemma recency_of_future days :
  (days < 0)%Z -> Qof (recency_of days) == 30 - inject_Z days /\ 31 <= Qof (recency_of days).
Proof.
  intros Hd. assert (Hd' : (days <= -1)%Z) by lia.
  rewrite Zle_Qle in Hd'. unfold inject_Z in Hd' at 2. unfold recency_of.
  destruct (Qof_num_max (NInt 0) (num_sub (NInt 30)
              (num_mul (NFloat (inject_Z days / 30)) (NInt 30))))
    as [[H ->]|[H ->]].
  - rewrite recency_inner. split; [reflexivity | lra].
  - exfalso. rewrite recency_inner in H. cbn [Qof] in H. unfold inject_Z in H at 2. lra.
Qed.

Lemma frequency_of_range n : 0 <= Qof n -> sub_score_between 0 25 (frequency_of n).
Proof.
  intros Hn. unfold frequency_of.
  destruct (Qof_num_min (NInt 25) (num_mul n (NInt 2))) as [[H ->]|[H ->]].
  - rewrite Qof_num_mul in H. cbn [Qof] in H. unfold inject_Z in H.
    apply sub_score_between_intro; rewrite Qof_num_mul; cbn [Qof]; unfold inject_Z; lra.
  - apply sub_score_between_intro; discriminate.
Qed.

Lemma monetary_of_range s : 0 <= Qof s -> sub_score_between 0 25 (monetary_of s).
Proof.
  intros Hs. unfold monetary_of.
  destruct (Qof_num_min (NInt 25) (NFloat (Qof s / 100))) as [[H ->]|[H ->]].
  - cbn [Qof] in H. unfold inject_Z in H.
    apply sub_score_between_intro; cbn [Qof]; unfold inject_Z; [|lra].
    apply Qle_shift_div_l; [reflexivity | lra].
  - apply sub_score_between_intro; discriminate.
Qed.

Lemma support_of_range t : 0 <= Qof t -> sub_score_between 0 10 (support_of t).
Proof.
  intros Ht. unfold support_of.
  destruct (Qof_num_max (NInt 0) (num_sub (NInt 10) t)) as [[H ->]|[H ->]].
  - rewrite Qof_num_sub in H. cbn [Qof] in H. unfold inject_Z in H.
    apply sub_score_between_intro; rewrite Qof_num_sub; cbn [Qof]; unfold inject_Z; lra.
  - apply sub_score_between_intro; discriminate.
Qed.

(** C3, as stated, at a concrete snapshot: a last order dated tomorrow gives
    [daysSinceLastOrder = -1] and a recency sub-score of 31. *)
Lemma future_date_recency_above_30 :
  let r := calculate_health_score sample_fromisoformat sample_now future_customer in
  score_body sample_fromisoformat sample_now future_customer = Ok r /\
  _days_since_last_order sample_fromisoformat sample_now
    (dict_get future_customer "last_order_date" PNone) = Ok (-1)%Z /\
  (exists recency, recency_score (-1) = Ok recency /\ Qof recency == 31) /\
  score_breakdown r !! "recency" = Some (NFloat 31) /\
  ~ 31 <= 30.
Proof.
  cbv zeta.
  split; [vm_compute; reflexivity|].
  split; [vm_compute; reflexivity|].
  split; [eexists; split; [reflexivity | vm_compute; reflexivity]|].
  split; [vm_compute; reflexivity|].
  intros H. vm_compute in H. by apply H.
Qed.

(** C3, amended: on the non-error path the recency sub-score is never
    negative and is at most 30 when [daysSinceLastOrder >= 0], whereas a
    future-dated last order gives [30 - daysSinceLastOrder >= 31]; for
    non-negative [total_orders], [total_spent] and [support_tickets] the
    frequency and monetary sub-scores lie in [[0, 25]] and the support
    sub-score in [[0, 10]].  The same bounds hold for the rounded entries of
    the breakdown. *)
Theorem sub_score_ranges f now cd r :
  score_body f now cd = Ok r ->
  exists days n s t a recency frequency monetary support,
    _days_since_last_order f now (dict_get cd "last_order_date" PNone) = Ok days /\
    numeric_inputs cd n s t a /\
    recency_score days = Ok recency /\
    frequency_score cd = Ok frequency /\
    monetary_score cd = Ok monetary /\
    support_score cd = Ok support /\
    score_breakdown r !! "recency" = Some (round2 recency) /\
    score_breakdown r !! "frequency" = Some (round2 frequency) /\
    score_breakdown r !! "monetary" = Some (round2 monetary) /\
    score_breakdown r !! "support" = Some (round2 support) /\
    (0 <= Qof recency /\ 0 <= Qof (round2 recency)) /\
    ((0 <= days)%Z -> sub_score_between 0 30 recency) /\
    ((days < 0)%Z -> Qof recency == 30 - inject_Z days /\
                     31 <= Qof recency /\ 31 <= Qof (round2 recency)) /\
    (0 <= Qof n -> sub_score_between 0 25 frequency) /\
    (0 <= Qof s -> sub_score_between 0 25 monetary) /\
    (0 <= Qof t -> sub_score_between 0 10 support).
Proof.
  intros H. apply score_body_inv in H as (days & n & s & t & a & Hd & Hnum & ->).
  destruct (sub_scores_numeric days cd n s t a Hnum) as (H1 & H2 & H3 & H4 & H5).
  exists days, n, s, t, a, (recency_of days), (frequency_of n), (monetary_of s),
    (support_of t).
  do 6 (split; [assumption|]).
  cbn [score_breakdown assessment_of]. unfold breakdown_of.
  do 4 (split; [by simplify_map_eq|]).
  pose proof (recency_of_nonneg days) as Hr0.
  split; [split; [exact Hr0 | by apply (round2_lower 0)]|].
  split; [intros Hdays; apply sub_score_between_intro;
          [exact Hr0 | by apply recency_of_le_30]|].
  split.
  { intros Hdays. destruct (recency_of_future days Hdays) as [E L].
    split; [exact E|]. split; [exact L | by apply (round2_lower 31)]. }
  split; [apply frequency_of_range|].
  split; [apply monetary_of_range | apply support_of_range].
Qed.

Lemma sub_score_ranges_witness :
  let r := calculate_health_score sample_fromisoformat sample_now future_customer in
  score_body sample_fromisoformat sample_now future_customer = Ok r /\
  exists days n s t a recency frequency monetary support,
    _days_since_last_order sample_fromisoformat sample_now
      (dict_get future_customer "last_order_date" PNone) = Ok days /\
    numeric_inputs future_customer n s t a /\
    recency_score days = Ok recency /\
    frequency_score future_customer = Ok frequency /\
    monetary_score future_customer = Ok monetary /\
    support_score future_customer = Ok support /\
    score_breakdown r !! "recency" = Some (round2 recency) /\
    score_breakdown r !! "frequency" = Some (round2 frequency) /\
    score_breakdown r !! "monetary" = Some (round2 monetary) /\
    score_breakdown r !! "support" = Some (round2 support) /\
    (0 <= Qof recency /\ 0 <= Qof (round2 recency)) /\
    ((0 <= days)%Z -> sub_score_between 0 30 recency) /\
    ((days < 0)%Z -> Qof recency == 30 - inject_Z days /\
                     31 <= Qof recency /\ 31 <= Qof (round2 recency)) /\
    (0 <= Qof n -> sub_score_between 0 25 frequency) /\
    (0 <= Qof s -> sub_score_between 0 25 monetary) /\
    (0 <= Qof t -> sub_score_between 0 10 support).
Proof.
  assert (H : score_body sample_fromisoformat sample_now future_customer
              = Ok (calculate_health_score sample_fromisoformat sample_now
                      future_customer)) by (vm_compute; reflexivity).
  split; [exact H|].
  exact (sub_score_ranges _ _ _ _ H).
Defined.

(** ** C4: monotonicity of the health score *)














(** ** C5: the lifetime value *)





(** ** C6: key factors and recommendations *)



Lemma triggered_length b1 b2 b3 b4 :
  (length (triggered [b1; b2; b3; b4]) <= 4)%nat.
Proof. destruct b1, b2, b3, b4; simpl; lia. Qed.

Lemma key_factors_of_typed now cd n t a days :
  field cd "total_orders" = Some n -> field cd "support_tickets" = Some t ->
  field cd "avg_rating" = Some a -> last_order_age now cd days ->
  key_factors_of now cd = Ok (map fst (triggered (triggers n t a days))).
Proof.
  unfold field. intros Hn Ht Ha Hd.
  unfold key_factors_of, py_lt, py_gt. rewrite Hn, Ht, Ha.
  unfold mbind, result_bind. unfold triggers.
  destruct Hd as [[-> ->]|(dt & Hdt & Htz & ->)].
  - by destruct (num_lt n (NInt 2)), (num_lt (NInt 3) t), (num_lt a (NInt 3)).
  - unfold dict_get, dict_item. rewrite Hdt. cbn [default from_option id truthy].
    unfold days_until_now. rewrite Htz.
    by destruct (num_lt n (NInt 2)), (num_lt (NInt 3) t), (num_lt a (NInt 3)),
      (90 <? (now - wall dt) / day_us)%Z.
Qed.



(** The explainer takes the age of the last order as it is, whereas
    [_days_since_last_order] first moves a [datetime] back to midnight: an
    order placed 90 days and 18 hours ago is 90 days old for the explainer
    and 91 days old for the scorer. *)
Example explainer_age_keeps_time_of_day :
  let d := PDateTime (mk_datetime (sample_now - 90 * day_us - 64800000000) None) in
  days_until_now sample_now d = Ok 90%Z /\
  _days_since_last_order sample_fromisoformat sample_now d = Ok 91%Z.
Proof. vm_compute. split; reflexivity. Qed.


(** ** C7: scenario A (and scenario B) *)

(** C7: with [last_order_date] absent ([None], or no such key) and all other
    inputs 0, the date defaults to 365 days, the sub-scores are 0, 0, 0, 10
    and 0, and the call returns health score 10.0, tier "High" and lifetime
    value 0.0. *)
Theorem scenario_A_assessment f now :
  Forall (fun cd =>
    _days_since_last_order f now (dict_get cd "last_order_date" PNone) = Ok 365%Z /\
    recency_score 365 = Ok (NInt 0) /\
    frequency_score cd = Ok (NInt 0) /\
    (exists m, monetary_score cd = Ok m /\ Qof m == 0) /\
    support_score cd = Ok (NInt 10) /\
    rating_score cd = Ok (PNum (NInt 0)) /\
    score_body f now cd = Ok (calculate_health_score f now cd) /\
    health_score (calculate_health_score f now cd) = NFloat 10 /\
    churn_risk (calculate_health_score f now cd) = "High" /\
    lifetime_value (calculate_health_score f now cd) = NFloat 0)
  [scenario_A; delete "last_order_date" scenario_A].
Proof.
  repeat constructor; try (eexists; split; [vm_compute; reflexivity | reflexivity]).
Qed.

(** Scenario B: every sub-score at its cap, health score 100.0, tier "Low",
    lifetime value 10000.0. *)
Example scenario_B_assessment :
  let r := calculate_health_score sample_fromisoformat sample_now scenario_B in
  health_score r = NFloat 100 /\ churn_risk r = "Low" /\ lifetime_value r = NFloat 10000.
Proof. vm_compute. repeat split. Qed.

(** ** C8: the churn probability *)

Lemma num_truediv_100 x : num_truediv x (NInt 100) = Ok (NFloat (Qof x / 100)).
Proof. reflexivity. Qed.



(** ** C9: the breakdown and the composite *)



(** ** C10: falsy and raising values of [last_order_date] *)






(** * Further properties of the code *)

(** ** The scorer: when the [except] branch is taken *)



(** X2: the safe default can be told apart from every genuine assessment:
    the returned breakdown is empty exactly when the [try] block raised. *)
Theorem empty_breakdown_iff_raised f now cd :
  score_breakdown (calculate_health_score f now cd) = ∅ <->
  exists e, score_body f now cd = Raise e.
Proof.
  unfold calculate_health_score.
  destruct (score_body f now cd) as [r|e] eqn:E.
  - split; [|intros [e He]; discriminate].
    intros Hempty. exfalso.
    apply score_body_inv in E as (days & n & s & t & a & _ & _ & ->).
    cbn [score_breakdown assessment_of] in Hempty.
    pose proof (dom_breakdown_of days n s t a) as Hdom.
    rewrite Hempty, dom_empty_L in Hdom. set_solver.
  - split; [intros _; by exists e | reflexivity].
Qed.

(** ** The scorer: ranges of the composite and of the lifetime value *)

Lemma rating_of_range a : 0 <= Qof a -> Qof a <= 5 ->
  0 <= Qof (rating_of a) /\ Qof (rating_of a) <= 10.
Proof.
  intros H0 H5. unfold rating_of. rewrite Qof_num_mul. cbn [Qof].
  unfold inject_Z. split; lra.
Qed.

Lemma total_of_range days n s t a :
  in_data_model days n s t a ->
  0 <= Qof (total_of days n s t a) /\ Qof (total_of days n s t a) <= 100.
Proof.
  intros (Hd & Hn & Hs & Ht & Ha0 & Ha5).
  pose proof (recency_of_nonneg days) as R0.
  pose proof (recency_of_le_30 days Hd) as R30.
  destruct (frequency_of_range n Hn) as [[F0 F25] _].
  destruct (monetary_of_range s Hs) as [[M0 M25] _].
  destruct (support_of_range t Ht) as [[S0 S10] _].
  destruct (rating_of_range a Ha0 Ha5) as [A0 A10].
  unfold inject_Z in *. unfold total_of. rewrite !Qof_num_add. split; lra.
Qed.





(** ** The scorer: days, recency and tiers *)

Lemma div_sub_days now k : ((now - k * day_us) / day_us = now / day_us - k)%Z.
Proof.
  replace (now - k * day_us)%Z with (now + (- k) * day_us)%Z by lia.
  rewrite Z.div_add by discriminate. lia.
Qed.

Lemma days_since_PDate f now o :
  _days_since_last_order f now (PDate o) = Ok (now / day_us - o)%Z.
Proof. cbn. by rewrite div_sub_days. Qed.

Lemma days_since_PDateTime f now t :
  _days_since_last_order f now (PDateTime t) = Ok (now / day_us - wall t / day_us)%Z.
Proof. cbn. by rewrite div_sub_days. Qed.

(** X5: for a [date] or a [datetime] of any time of day and any [tzinfo],
    [_days_since_last_order] never raises and returns the difference between
    the day number of [now] and the day number of the order. *)
Theorem days_since_is_calendar_difference f now :
  (forall o, _days_since_last_order f now (PDate o) = Ok (now / day_us - o)%Z) /\
  (forall t, _days_since_last_order f now (PDateTime t)
             = Ok (now / day_us - wall t / day_us)%Z).
Proof. split; [apply days_since_PDate | apply days_since_PDateTime]. Qed.

(** X6: the recency sub-score loses one point per day: its value is
    [max(0, 30 - days)] for every number of days. *)
Theorem recency_one_point_per_day days :
  exists x, recency_score days = Ok x /\ Qof x == inject_Z (Z.max 0 (30 - days)).
Proof.
  exists (recency_of days). split; [reflexivity|].
  unfold recency_of.
  destruct (Qof_num_max (NInt 0) (num_sub (NInt 30)
              (num_mul (NFloat (inject_Z days / 30)) (NInt 30))))
    as [[H ->]|[H ->]]; rewrite recency_inner in H; cbn [Qof] in H;
    change (inject_Z 0) with 0 in H.
  - rewrite recency_inner.
    assert (Hd : (days < 30)%Z).
    { apply Z.nle_gt. intros Hge. rewrite Zle_Qle in Hge.
      change (inject_Z 30) with 30 in Hge. lra. }
    rewrite Z.max_r by lia. unfold Z.sub.
    rewrite inject_Z_plus, inject_Z_opp. reflexivity.
  - assert (Hd : (30 <= days)%Z).
    { apply Z.nlt_ge. intros Hlt. rewrite Zlt_Qlt in Hlt.
      change (inject_Z 30) with 30 in Hlt. lra. }
    rewrite Z.max_l by lia. reflexivity.
Qed.




(** X8: the returned tier and the returned (rounded) health score agree up
    to the two thresholds: "Low" comes with a score of at least 70, "Medium"
    with a score between 40 and 70, "High" with a score of at most 40; and a
    score above 70, strictly between 40 and 70, or below 40 decides the
    tier. *)
Theorem tier_and_returned_score f now cd r :
  score_body f now cd = Ok r ->
  (churn_risk r = "Low" -> 70 <= Qof (health_score r)) /\
  (churn_risk r = "Medium" ->
     40 <= Qof (health_score r) /\ Qof (health_score r) <= 70) /\
  (churn_risk r = "High" -> Qof (health_score r) <= 40) /\
  (70 < Qof (health_score r) -> churn_risk r = "Low") /\
  (40 < Qof (health_score r) -> Qof (health_score r) < 70 ->
     churn_risk r = "Medium") /\
  (Qof (health_score r) < 40 -> churn_risk r = "High").
Proof.
  intros H.
  destruct (churn_risk_of_rounded_score f now cd r H) as (B1 & B2 & B3).
  apply score_body_inv in H as (days & n & s & t & a & Hd & Hnum & ->).
  cbn [churn_risk health_score assessment_of] in *.
  set (total := total_of days n s t a) in *.
  pose proof (round2_lower 70 total) as L70. pose proof (round2_upper 70 total) as U70.
  pose proof (round2_lower 40 total) as L40. pose proof (round2_upper 40 total) as U40.
  unfold inject_Z in *.
  split; [|split; [|split; [|by repeat split]]].
  - destruct (risk_tier_cases total) as [[H1 ->]|[(H1 & H2 & ->)|[H1 ->]]];
      intros E; try discriminate E. by apply L70.
  - destruct (risk_tier_cases total) as [[H1 ->]|[(H1 & H2 & ->)|[H1 ->]]];
      intros E; try discriminate E.
    split; [by apply L40 | apply U70; by apply Qlt_le_weak].
  - destruct (risk_tier_cases total) as [[H1 ->]|[(H1 & H2 & ->)|[H1 ->]]];
      intros E; try discriminate E. apply U40. by apply Qlt_le_weak.
Qed.

Lemma tier_and_returned_score_witness :
  let r := calculate_health_score sample_fromisoformat sample_now boundary_customer in
  score_body sample_fromisoformat sample_now boundary_customer = Ok r /\
  churn_risk r = "Medium" /\
  40 <= Qof (health_score r) /\ Qof (health_score r) <= 70.
Proof.
  assert (H : score_body sample_fromisoformat sample_now boundary_customer
              = Ok (calculate_health_score sample_fromisoformat sample_now
                      boundary_customer)) by (vm_compute; reflexivity).
  split; [exact H|]. split; [vm_compute; reflexivity|].
  apply (proj1 (proj2 (tier_and_returned_score _ _ _ _ H))).
  vm_compute. reflexivity.
Defined.

(** ** The explainer: error behaviour *)

Lemma last_order_age_exists now cd :
  truthy (dict_get cd "last_order_date" PNone) = false \/
  naive_datetime (dict_get cd "last_order_date" PNone) ->
  exists days, last_order_age now cd days.
Proof.
  intros [H|(t & Ht & Htz)].
  - exists None. by left.
  - exists (Some ((now - wall t) / day_us)%Z). right. exists t.
    split; [|done]. unfold dict_get in Ht.
    destruct (cd !! "last_order_date") as [v|]; cbn in Ht; by subst.
Qed.

Lemma key_factors_of_inv now cd kf :
  key_factors_of now cd = Ok kf ->
  exists n t a days,
    field cd "total_orders" = Some n /\ field cd "support_tickets" = Some t /\
    field cd "avg_rating" = Some a /\ last_order_age now cd days /\
    kf = map fst (triggered (triggers n t a days)).
Proof.
  intros H. pose proof H as H0. unfold key_factors_of in H.
  apply bind_Ok in H as (b1 & H1 & H).
  apply bind_Ok in H as (b2 & H2 & H).
  apply bind_Ok in H as (b3 & H3 & H).
  unfold py_lt, py_gt in H1, H2, H3.
  destruct (as_num (dict_get cd "total_orders" int0)) as [n|] eqn:Hn; [|discriminate].
  destruct (as_num (dict_get cd "support_tickets" int0)) as [t|] eqn:Ht; [|discriminate].
  destruct (as_num (dict_get cd "avg_rating" int0)) as [a|] eqn:Ha; [|discriminate].
  assert (exists days, last_order_age now cd days) as [days Hage].
  { destruct (truthy (dict_get cd "last_order_date" PNone)) eqn:Htr.
    - apply bind_Ok in H as (v & Hv & H).
      apply bind_Ok in H as (d & Hd & _).
      unfold dict_item in Hv.
      destruct (cd !! "last_order_date") as [v'|] eqn:Hl; [|discriminate].
      injection Hv as ->. unfold days_until_now in Hd.
      destruct v as [| | | | |dt]; try discriminate.
      destruct (tzinfo dt) eqn:Htz; [discriminate|].
      exists (Some ((now - wall dt) / day_us)%Z). right. by exists dt.
    - exists None. by left. }
  exists n, t, a, days. repeat (split; [done|]).
  rewrite (key_factors_of_typed now cd n t a days Hn Ht Ha Hage) in H0. congruence.
Qed.

Lemma key_factors_of_only_TypeError now cd e :
  key_factors_of now cd = Raise e -> e = TypeError.
Proof.
  unfold key_factors_of, py_lt, py_gt.
  destruct (as_num (dict_get cd "total_orders" int0)); [|by intros [= <-]].
  destruct (as_num (dict_get cd "support_tickets" int0)); [|by intros [= <-]].
  destruct (as_num (dict_get cd "avg_rating" int0)); [|by intros [= <-]].
  cbn [mbind result_bind]. unfold mbind, result_bind.
  destruct (truthy (dict_get cd "last_order_date" PNone)) eqn:Htr; [|discriminate].
  unfold dict_item, dict_get in *.
  destruct (cd !! "last_order_date") as [v|]; [|discriminate Htr].
  unfold days_until_now.
  destruct v as [| | | | |dt]; try (by intros [= <-]).
  destruct (tzinfo dt); [by intros [= <-] | discriminate].
Qed.

(** X9: the four [if] statements of the explainer run through exactly when
    [total_orders], [support_tickets] and [avg_rating] are numbers (or
    missing) and [last_order_date] is falsy or a naive [datetime]; otherwise
    they raise [TypeError], and nothing else. *)
Theorem key_factors_of_succeeds_iff now cd :
  ((exists kf, key_factors_of now cd = Ok kf) <->
   is_Some (field cd "total_orders") /\ is_Some (field cd "support_tickets") /\
   is_Some (field cd "avg_rating") /\
   (truthy (dict_get cd "last_order_date" PNone) = false \/
    naive_datetime (dict_get cd "last_order_date" PNone))) /\
  (forall e, key_factors_of now cd = Raise e -> e = TypeError).
Proof.
  split; [|apply key_factors_of_only_TypeError].
  split.
  - intros [kf Hkf].
    apply key_factors_of_inv in Hkf as (n & t & a & days & Hn & Ht & Ha & Hage & _).
    split; [by exists n|]. split; [by exists t|]. split; [by exists a|].
    destruct Hage as [[Hf _]|(dt & Hdt & Htz & _)]; [by left|].
    right. exists dt. unfold dict_get. by rewrite Hdt.
  - intros ([n Hn] & [t Ht] & [a Ha] & Hdate).
    destruct (last_order_age_exists now cd Hdate) as [days Hage].
    eexists. exact (key_factors_of_typed now cd n t a days Hn Ht Ha Hage).
Qed.



(** ** The explainer and the scorer together *)

Lemma no_recent_purchases_triggered b1 b2 b3 b4 :
  str_in "No recent purchases" (map fst (triggered [b1; b2; b3; b4])) = true ->
  b4 = true.
Proof. destruct b1, b2, b3, b4; cbn; congruence. Qed.

(** X11: whenever the explainer lists "No recent purchases" for a record,
    the scorer finds its last order more than 90 days old as well and gives
    recency 0: the day count of the scorer is the explainer's age of the
    order, or one more. *)
Theorem no_recent_purchases_means_zero_recency f now cd kf :
  key_factors_of now cd = Ok kf ->
  str_in "No recent purchases" kf = true ->
  exists t age days,
    cd !! "last_order_date" = Some (PDateTime t) /\
    days_until_now now (PDateTime t) = Ok age /\ (90 < age)%Z /\
    _days_since_last_order f now (dict_get cd "last_order_date" PNone) = Ok days /\
    (age <= days <= age + 1)%Z /\
    recency_score days = Ok (NInt 0).
Proof.
  intros Hk Hin.
  apply key_factors_of_inv in Hk as (n & t & a & days & _ & _ & _ & Hage & ->).
  apply no_recent_purchases_triggered in Hin.
  destruct Hage as [[_ ->]|(dt & Hdt & Htz & ->)]; [discriminate|].
  apply Z.ltb_lt in Hin.
  exists dt, ((now - wall dt) / day_us)%Z, (now / day_us - wall dt / day_us)%Z.
  split; [exact Hdt|].
  split; [unfold days_until_now; by rewrite Htz|].
  split; [exact Hin|].
  split.
  { unfold dict_get. rewrite Hdt. cbn [default from_option id].
    apply days_since_PDateTime. }
  assert (Hrange : ((now - wall dt) / day_us <= now / day_us - wall dt / day_us
                    <= (now - wall dt) / day_us + 1)%Z).
  { unfold day_us. Z.div_mod_to_equations. lia. }
  split; [exact Hrange|].
  assert (Hd30 : (30 <= now / day_us - wall dt / day_us)%Z) by lia.
  rewrite recency_score_eq. f_equal. unfold recency_of.
  destruct (Qof_num_max (NInt 0) (num_sub (NInt 30)
              (num_mul (NFloat (inject_Z (now / day_us - wall dt / day_us) / 30))
                 (NInt 30)))) as [[H _]|[_ ->]]; [|reflexivity].
  exfalso. rewrite recency_inner in H. cbn [Qof] in H.
  rewrite Zle_Qle in Hd30. change (inject_Z 30) with 30 in Hd30.
  change (inject_Z 0) with 0 in H. lra.
Qed.

Lemma no_recent_purchases_means_zero_recency_witness :
  exists t age days,
    scenario_C !! "last_order_date" = Some (PDateTime t) /\
    days_until_now sample_now (PDateTime t) = Ok age /\ (90 < age)%Z /\
    _days_since_last_order sample_fromisoformat sample_now
      (dict_get scenario_C "last_order_date" PNone) = Ok days /\
    (age <= days <= age + 1)%Z /\
    recency_score days = Ok (NInt 0).
Proof.
  apply (no_recent_purchases_means_zero_recency sample_fromisoformat sample_now
           scenario_C
           ["Low purchase frequency"; "High support ticket volume";
            "Low product satisfaction"; "No recent purchases"]).
  - vm_compute. reflexivity.
  - reflexivity.
Defined.

(** ** The explainer: the whole loop, probabilities and recommendations *)



Lemma round2Q_lower (n : Z) q : inject_Z n <= q -> inject_Z n <= round2Q q.
Proof. intros H. rewrite <- (round2Q_Z n). by apply round2Q_mono. Qed.

Lemma round2Q_upper (n : Z) q : q <= inject_Z n -> round2Q q <= inject_Z n.
Proof. intros H. rewrite <- (round2Q_Z n). by apply round2Q_mono. Qed.

Lemma churn_probability_of_numeric cd h :
  field cd "health_score" = Some h ->
  churn_probability_of cd = Ok (NFloat (round2Q ((100 - Qof h) / 100))).
Proof.
  unfold field. intros Hh. unfold churn_probability_of, py_rsub. rewrite Hh.
  unfold mbind, result_bind. rewrite num_truediv_100. cbn [round2].
  do 2 f_equal. apply round2Q_proper. rewrite Qof_num_sub. reflexivity.
Qed.

(** X13: for a stored health score between 0 and 100 the churn probability
    lies between 0 and 1, and a higher health score never gives a higher
    probability. *)
Theorem churn_probability_range_and_order cd cd' h h' :
  field cd "health_score" = Some h -> field cd' "health_score" = Some h' ->
  exists p p', churn_probability_of cd = Ok p /\ churn_probability_of cd' = Ok p' /\
    (0 <= Qof h -> Qof h <= 100 -> 0 <= Qof p /\ Qof p <= 1) /\
    (Qof h <= Qof h' -> Qof p' <= Qof p).
Proof.
  intros Hh Hh'.
  eexists _, _. split; [exact (churn_probability_of_numeric cd h Hh)|].
  split; [exact (churn_probability_of_numeric cd' h' Hh')|].
  cbn [Qof]. split.
  - intros H0 H100. split.
    + apply (round2Q_lower 0). change (inject_Z 0) with 0.
      apply Qle_shift_div_l; [reflexivity | lra].
    + apply (round2Q_upper 1). change (inject_Z 1) with 1.
      apply Qle_shift_div_r; [reflexivity | lra].
  - intros Hle. apply round2Q_mono.
    apply Qmult_le_compat_r; [lra | discriminate].
Qed.

Lemma churn_probability_range_and_order_witness :
  exists p p',
    churn_probability_of scenario_C = Ok p /\
    churn_probability_of (<["health_score" := PNum (NInt 40)]> scenario_C) = Ok p' /\
    (0 <= 125 # 10 -> 125 # 10 <= 100 -> 0 <= Qof p /\ Qof p <= 1) /\
    (125 # 10 <= inject_Z 40 -> Qof p' <= Qof p).
Proof.
  apply (churn_probability_range_and_order scenario_C
           (<["health_score" := PNum (NInt 40)]> scenario_C)
           (NFloat (125 # 10)) (NInt 40)); vm_compute; reflexivity.
Defined.

Lemma recommendations_of_by_membership kf :
  recommendations_of kf
  = map snd (triggered [ str_in "Low purchase frequency" kf;
                         str_in "High support ticket volume" kf;
                         str_in "Low product satisfaction" kf;
                         str_in "No recent purchases" kf ]).
Proof.
  unfold recommendations_of.
  by destruct (str_in "Low purchase frequency" kf),
    (str_in "High support ticket volume" kf),
    (str_in "Low product satisfaction" kf), (str_in "No recent purchases" kf).
Qed.

Lemma str_in_iff x (l : list string) : str_in x l = true <-> x ∈ l.
Proof.
  unfold str_in. rewrite existsb_exists. split.
  - intros (y & Hy & E). apply String.eqb_eq in E. subst. by apply list_elem_of_In.
  - intros H. exists x. split; [by apply list_elem_of_In | apply String.eqb_refl].
Qed.

(** X14: for any list of factors, in any order and with any repetition or
    unknown label, the recommendations depend only on which of the four
    labels occur: there are at most 4 of them, none twice, and two lists
    with the same elements get the same recommendations. *)
Theorem recommendations_depend_on_membership_only (kf : list string) :
  (length (recommendations_of kf) <= 4)%nat /\
  NoDup (recommendations_of kf) /\
  (forall kf' : list string, (forall x, x ∈ kf <-> x ∈ kf') ->
     recommendations_of kf = recommendations_of kf').
Proof.
  split; [|split].
  - rewrite recommendations_of_by_membership, length_map. apply triggered_length.
  - rewrite recommendations_of_by_membership.
    destruct (str_in "Low purchase frequency" kf),
      (str_in "High support ticket volume" kf),
      (str_in "Low product satisfaction" kf), (str_in "No recent purchases" kf);
      cbn; apply NoDup_ListNoDup; repeat constructor; cbn; intuition discriminate.
  - intros kf' Hsame.
    assert (E : forall x, str_in x kf = str_in x kf').
    { intros x. apply eq_true_iff_eq. rewrite !str_in_iff. apply Hsame. }
    rewrite !recommendations_of_by_membership. by rewrite !E.
Qed.

(** ** The dashboard metrics *)

Lemma py_round2_Ok_iff v : (exists x, py_round2 v = Ok x) <-> is_Some (as_num v).
Proof.
  unfold py_round2. destruct (as_num v) as [a|].
  - split; [by eexists | intros _; by eexists].
  - split; [intros [x H]; discriminate | intros [x H]; discriminate].
Qed.

Lemma churn_rate_value total high :
  (0 < total)%Z ->
  num_truediv (NInt high) (NInt total)
  = Ok (NFloat (inject_Z high / inject_Z total)).
Proof.
  intros H. unfold num_truediv. cbn [Qof].
  destruct (Qeq_bool (inject_Z total) 0) eqn:E; [|reflexivity].
  exfalso. apply Qeq_bool_eq in E. unfold Qeq in E. cbn in E. lia.
Qed.



(** X16: the handler produces metrics exactly when the aggregation returned
    nothing (revenue and average are then 0) or its first row holds numeric
    [total_revenue] and [avg_lifetime_value]; whatever the counts, it never
    fails with a division by zero. *)
Theorem dashboard_metrics_succeed_iff total high medium low agg :
  ((exists m, get_dashboard_metrics total high medium low agg = Ok m) <->
   agg = [] \/
   exists row rest revenue avg, agg = row :: rest /\
     row !! "total_revenue" = Some revenue /\ is_Some (as_num revenue) /\
     row !! "avg_lifetime_value" = Some avg /\ is_Some (as_num avg)) /\
  (agg = [] ->
   exists m, get_dashboard_metrics total high medium low agg = Ok m /\
     total_revenue m = NInt 0 /\ avg_lifetime_value m = NInt 0) /\
  get_dashboard_metrics total high medium low agg <> Raise ZeroDivisionError.
Proof.
  assert (Hrate : exists rate,
    (if (0 <? total)%Z then
       q ← num_truediv (NInt high) (NInt total); Ok (num_mul q (NInt 100))
     else Ok (NInt 0)) = Ok rate).
  { destruct (Z.ltb_spec 0 total) as [Hpos|Hle]; [|by eexists].
    rewrite (churn_rate_value total high Hpos). by eexists. }
  destruct Hrate as [rate Hrate].
  unfold get_dashboard_metrics. rewrite Hrate. clear Hrate.
  destruct agg as [|row rest]; cbn [first_or_zero].
  - split; [|split].
    + split; [intros _; by left | intros _; by eexists].
    + intros _. by eexists.
    + discriminate.
  - unfold dict_item.
    destruct (row !! "total_revenue") as [revenue|] eqn:Hr.
    2:{ split; [|split]; try (cbn; discriminate).
        split; [intros [m H]; cbn in H; discriminate|].
        intros [H|(? & ? & ? & ? & [= <- <-] & H & _)]; [discriminate | congruence]. }
    destruct (row !! "avg_lifetime_value") as [avg|] eqn:Ha.
    2:{ split; [|split]; try (cbn; discriminate).
        split; [intros [m H]; cbn in H; discriminate|].
        intros [H|(? & ? & ? & ? & [= <- <-] & _ & _ & H & _)]; [discriminate | congruence]. }
    unfold py_round2, mbind, result_bind.
    destruct (as_num revenue) as [x|] eqn:Hx.
    2:{ split; [|split]; try (cbn; discriminate).
        split; [intros [m H]; cbn in H; discriminate|].
        intros [H|(? & ? & ? & ? & [= <- <-] & E & [? S] & _)]; [discriminate|].
        congruence. }
    destruct (as_num avg) as [y|] eqn:Hy.
    2:{ split; [|split]; try (cbn; discriminate).
        split; [intros [m H]; cbn in H; discriminate|].
        intros [H|(? & ? & ? & ? & [= <- <-] & _ & _ & E & [? S])]; [discriminate|].
        congruence. }
    split; [|split]; try (cbn; discriminate).
    split; [|intros _; by eexists].
    intros _. right. exists row, rest, revenue, avg.
    repeat split; try done; by eexists.
Qed.

(** ** The customer list *)


(** ** The sample-data generator *)

Lemma order_loop_from cid draws orders0 spent0 :
  fold_left
    (fun '(customer_orders, total_spent) d =>
       let order := make_order cid d in
       let total_spent :=
         if is_completed order then num_add total_spent (total_amount order)
         else total_spent in
       (customer_orders ++ [order], total_spent))
    draws (orders0, spent0)
  = (orders0 ++ map (make_order cid) draws,
     fold_left
       (fun total_spent o =>
          if is_completed o then num_add total_spent (total_amount o) else total_spent)
       (map (make_order cid) draws) spent0).
Proof.
  revert orders0 spent0. induction draws as [|d draws IH]; intros orders0 spent0.
  - cbn. by rewrite app_nil_r.
  - cbn [fold_left map]. rewrite IH. by rewrite <- app_assoc.
Qed.

Lemma order_loop_eq cid draws :
  order_loop cid draws
  = (map (make_order cid) draws, completed_total (map (make_order cid) draws)).
Proof. unfold order_loop. by rewrite order_loop_from. Qed.

Lemma completed_total_nonneg orders :
  Forall (fun o => 0 <= Qof (total_amount o)) orders ->
  0 <= Qof (completed_total orders).
Proof.
  unfold completed_total.
  assert (G : forall acc, 0 <= Qof acc ->
    Forall (fun o => 0 <= Qof (total_amount o)) orders ->
    0 <= Qof (fold_left
      (fun total_spent o =>
         if is_completed o then num_add total_spent (total_amount o) else total_spent)
      orders acc)).
  { induction orders as [|o orders IH]; intros acc Hacc Hall; [exact Hacc|].
    inversion Hall as [|? ? Ho Hrest]; subst. cbn [fold_left]. apply IH; [|exact Hrest].
    destruct (is_completed o); [|exact Hacc]. rewrite Qof_num_add. lra. }
  apply G. discriminate.
Qed.

Lemma completed_total_none orders :
  Forall (fun o => is_completed o = false) orders -> completed_total orders = NInt 0.
Proof.
  unfold completed_total. generalize (NInt 0).
  induction orders as [|o orders IH]; intros acc Hall; [reflexivity|].
  inversion Hall as [|? ? Ho Hrest]; subst. cbn [fold_left]. rewrite Ho. by apply IH.
Qed.

Lemma datetime_max_spec first rest :
  datetime_max first rest ∈ first :: rest /\
  Forall (fun x => (wall x <= wall (datetime_max first rest))%Z) (first :: rest).
Proof.
  unfold datetime_max. revert first. induction rest as [|x rest IH]; intros first.
  - cbn. split; [by left | by repeat constructor].
  - cbn [fold_left].
    destruct (IH (if (wall first <? wall x)%Z then x else first)) as [Hin Hall].
    split.
    + apply elem_of_cons in Hin as [->|Hin].
      * destruct (wall first <? wall x)%Z; [right; by left | by left].
      * by do 2 right.
    + inversion Hall as [|? ? Hm Hrest]; subst.
      destruct (Z.ltb_spec (wall first) (wall x)).
      * constructor; [lia|]. by constructor.
      * constructor; [exact Hm|]. constructor; [lia | exact Hrest].
Qed.

Lemma Zsum_bounds (l : list Z) :
  Forall (fun x => (1 <= x <= 5)%Z) l ->
  (Z.of_nat (length l) <= Zsum l <= 5 * Z.of_nat (length l))%Z.
Proof.
  induction 1 as [|x l Hx _ IH]; cbn [Zsum fold_right length]; [lia|].
  fold (Zsum l). lia.
Qed.

Lemma avg_rating_of_range ratings :
  Forall (fun x => (1 <= x <= 5)%Z) ratings ->
  0 <= Qof (avg_rating_of ratings) /\ Qof (avg_rating_of ratings) <= 5 /\
  (ratings <> [] -> 1 <= Qof (avg_rating_of ratings)).
Proof.
  intros Hall. destruct ratings as [|x l].
  - cbn. repeat split; try discriminate. by intros [].
  - pose proof (Zsum_bounds (x :: l) Hall) as [Hlo Hhi].
    assert (Hlen : (0 < Z.of_nat (length (x :: l)))%Z) by (cbn [length]; lia).
    change (avg_rating_of (x :: l))
      with (round2 (NFloat (inject_Z (Zsum (x :: l))
                            / inject_Z (Z.of_nat (length (x :: l)))))).
    set (ratings := x :: l) in *.
    set (k := Z.of_nat (length ratings)) in *. set (sm := Zsum ratings) in *.
    assert (Hk : 0 < inject_Z k) by (change 0 with (inject_Z 0); by rewrite <- Zlt_Qlt).
    assert (Hlo' : inject_Z k <= inject_Z sm) by (by rewrite <- Zle_Qle).
    assert (Hhi' : inject_Z sm <= 5 * inject_Z k).
    { change 5 with (inject_Z 5). rewrite <- inject_Z_mult. by rewrite <- Zle_Qle. }
    assert (M1 : 1 <= inject_Z sm / inject_Z k).
    { apply Qle_shift_div_l; [exact Hk | lra]. }
    assert (M5 : inject_Z sm / inject_Z k <= 5).
    { apply Qle_shift_div_r; [exact Hk | lra]. }
    cbn [round2 Qof].
    assert (R1 : 1 <= round2Q (inject_Z sm / inject_Z k)).
    { apply (round2Q_lower 1). exact M1. }
    assert (R5 : round2Q (inject_Z sm / inject_Z k) <= 5).
    { apply (round2Q_upper 5). exact M5. }
    repeat split; try lra. 
Qed.

Lemma generated_customer_fields dr :
  let orders := map (make_order (draw_customer_id dr)) (draw_orders dr) in
  let c := generated_customer dr in
  c !! "total_orders"
    = Some (PNum (NInt (Z.of_nat (length (List.filter is_completed orders))))) /\
  c !! "total_spent" = Some (PNum (round2 (completed_total orders))) /\
  c !! "support_tickets" = Some (PNum (NInt (draw_tickets dr))) /\
  c !! "avg_rating" = Some (PNum (avg_rating_of (draw_ratings dr))) /\
  c !! "last_order_date"
    = Some (match map order_date orders with
            | [] => PNone
            | first :: rest => PDateTime (datetime_max first rest)
            end) /\
  c !! "customer_id" = Some (PStr (draw_customer_id dr)) /\
  c !! "name" = Some (PStr (draw_name dr)) /\
  c !! "email" = Some (PStr (draw_email dr)) /\
  c !! "customer_tier" = Some (PStr (draw_tier dr)) /\
  c !! "region" = Some (PStr (draw_region dr)).
Proof.
  cbv zeta. unfold generated_customer. rewrite order_loop_eq.
  destruct (map order_date (map (make_order (draw_customer_id dr)) (draw_orders dr)));
    repeat split; reflexivity.
Qed.

Lemma order_dates_eq cid draws :
  map order_date (map (make_order cid) draws)
  = map (fun d => combine_min (inl (draw_order_date d))) draws.
Proof. by rewrite map_map. Qed.

Lemma generated_last_order_date dr :
  (draw_orders dr = [] /\
   generated_customer dr !! "last_order_date" = Some PNone) \/
  (exists d, d ∈ draw_orders dr /\
     Forall (fun d' => (draw_order_date d' <= draw_order_date d)%Z) (draw_orders dr) /\
     generated_customer dr !! "last_order_date"
       = Some (PDateTime (mk_datetime (draw_order_date d * day_us) None))).
Proof.
  destruct (generated_customer_fields dr) as (_ & _ & _ & _ & Hl & _).
  cbv zeta in Hl. rewrite order_dates_eq in Hl.
  destruct (draw_orders dr) as [|d0 draws] eqn:E; [left; by split|].
  right. cbn [map] in Hl.
  set (first := combine_min (inl (draw_order_date d0))) in *.
  set (rest := map (fun d => combine_min (inl (draw_order_date d))) draws) in *.
  destruct (datetime_max_spec first rest) as [Hin Hmax].
  assert (Hlist : first :: rest
                  = map (fun d => combine_min (inl (draw_order_date d))) (d0 :: draws))
    by reflexivity.
  rewrite Hlist in Hin, Hmax.
  apply list_elem_of_In, in_map_iff in Hin as (d & Hd & Hdin).
  exists d. split; [by apply list_elem_of_In|]. split.
  - apply List.Forall_forall. intros d' Hd'.
    rewrite List.Forall_forall in Hmax.
    specialize (Hmax (combine_min (inl (draw_order_date d')))
                  (in_map _ _ _ Hd')).
    rewrite <- Hd in Hmax. cbn in Hmax. unfold day_us in Hmax. lia.
  - rewrite Hl, <- Hd. reflexivity.
Qed.

(** X18: the generator counts only completed orders in [total_orders] and
    [total_spent], but takes [last_order_date] from the latest order of any
    status: it is [None] exactly for a customer without orders, and a
    customer whose orders were all cancelled or refunded has 0 orders and 0
    spent together with a last order date. *)
Theorem generated_customer_aggregates dr :
  let c := generated_customer dr in
  (exists k, c !! "total_orders" = Some (PNum (NInt k)) /\
     (0 <= k <= Z.of_nat (length (draw_orders dr)))%Z) /\
  (c !! "last_order_date" = Some PNone <-> draw_orders dr = []) /\
  (draw_orders dr <> [] ->
   exists d, d ∈ draw_orders dr /\
     Forall (fun d' => (draw_order_date d' <= draw_order_date d)%Z) (draw_orders dr) /\
     c !! "last_order_date"
       = Some (PDateTime (mk_datetime (draw_order_date d * day_us) None))) /\
  (Forall (fun d => draw_status d <> "Completed") (draw_orders dr) ->
   c !! "total_orders" = Some (PNum (NInt 0)) /\
   c !! "total_spent" = Some (PNum (NInt 0))).
Proof.
  cbv zeta.
  destruct (generated_customer_fields dr) as (Hn & Hs & _). cbv zeta in Hn, Hs.
  set (orders := map (make_order (draw_customer_id dr)) (draw_orders dr)) in *.
  split; [|split; [|split]].
  - eexists. split; [exact Hn|].
    pose proof (filter_length_le is_completed orders) as Hlen.
    unfold orders in Hlen at 2. rewrite length_map in Hlen. lia.
  - destruct (generated_last_order_date dr) as [[E Hl]|(d & Hd & _ & Hl)].
    + by split.
    + rewrite Hl. split; [discriminate|]. intros E. rewrite E in Hd.
      by apply elem_of_nil in Hd.
  - intros Hne.
    destruct (generated_last_order_date dr) as [[E _]|H]; [done | exact H].
  - intros Hnone.
    assert (Hall : Forall (fun o => is_completed o = false) orders).
    { unfold orders. apply List.Forall_forall. intros o Ho.
      apply in_map_iff in Ho as (d & <- & Hd).
      rewrite List.Forall_forall in Hnone. specialize (Hnone d Hd).
      unfold is_completed. cbn. by apply String.eqb_neq. }
    rewrite Hn, Hs, (completed_total_none orders Hall).
    assert (Hf : List.filter is_completed orders = []).
    { clear -Hall. induction Hall as [|o l Ho _ IH]; [reflexivity|].
      cbn. by rewrite Ho. }
    by rewrite Hf.
Qed.

Lemma generated_customer_aggregates_witness :
  let c := generated_customer sample_draw in
  c !! "total_orders" = Some (PNum (NInt 1)) /\
  exists d, d ∈ draw_orders sample_draw /\
    Forall (fun d' => (draw_order_date d' <= draw_order_date d)%Z)
      (draw_orders sample_draw) /\
    c !! "last_order_date"
      = Some (PDateTime (mk_datetime (draw_order_date d * day_us) None)).
Proof.
  split; [vm_compute; reflexivity|].
  apply (proj1 (proj2 (proj2 (generated_customer_aggregates sample_draw)))).
  discriminate.
Defined.

Lemma generated_customer_in_data_model f now dr :
  valid_draws now dr ->
  exists days n s t a,
    _days_since_last_order f now
      (dict_get (generated_customer dr) "last_order_date" PNone) = Ok days /\
    numeric_inputs (generated_customer dr) n s t a /\
    in_data_model days n s t a /\
    (truthy (dict_get (generated_customer dr) "last_order_date" PNone) = false \/
     naive_datetime (dict_get (generated_customer dr) "last_order_date" PNone)).
Proof.
  intros (Horders & Htickets & Hratings).
  destruct (generated_customer_fields dr) as (Hn & Hs & Ht & Ha & _).
  cbv zeta in Hn, Hs, Ht, Ha.
  set (orders := map (make_order (draw_customer_id dr)) (draw_orders dr)) in *.
  assert (exists days,
    _days_since_last_order f now
      (dict_get (generated_customer dr) "last_order_date" PNone) = Ok days /\
    (0 <= days)%Z /\
    (truthy (dict_get (generated_customer dr) "last_order_date" PNone) = false \/
     naive_datetime (dict_get (generated_customer dr) "last_order_date" PNone)))
    as (days & Hd & Hd0 & Hdate).
  { unfold dict_get.
    destruct (generated_last_order_date dr) as [[_ ->]|(d & Hin & _ & ->)];
      cbn [default from_option id].
    - exists 365%Z. split; [reflexivity|]. split; [lia | by left].
    - rewrite days_since_PDateTime. cbn [wall].
      rewrite Z.div_mul by discriminate.
      eexists. split; [reflexivity|]. split.
      + rewrite List.Forall_forall in Horders.
        apply list_elem_of_In in Hin. destruct (Horders d Hin) as [Hle _]. lia.
      + right. eexists. by split. }
  exists days, (NInt (Z.of_nat (length (List.filter is_completed orders)))),
    (round2 (completed_total orders)), (NInt (draw_tickets dr)),
    (avg_rating_of (draw_ratings dr)).
  split; [exact Hd|]. split.
  { unfold numeric_inputs, field, dict_get. by rewrite Hn, Hs, Ht, Ha. }
  split; [|exact Hdate].
  destruct (avg_rating_of_range (draw_ratings dr) Hratings) as (A0 & A5 & _).
  split; [exact Hd0|]. split.
  { cbn [Qof]. change 0 with (inject_Z 0). rewrite <- Zle_Qle. lia. }
  split.
  { apply (round2_lower 0). apply completed_total_nonneg.
    unfold orders. apply List.Forall_forall. intros o Ho.
    apply in_map_iff in Ho as (d & <- & Hdin).
    rewrite List.Forall_forall in Horders. destruct (Horders d Hdin) as [_ Hamt].
    cbn [total_amount make_order round2 Qof].
    apply (round2Q_lower 0). exact Hamt. }
  split.
  { cbn [Qof]. change 0 with (inject_Z 0). by rewrite <- Zle_Qle. }
  split; [exact A0 | exact A5].
Qed.

(** X19: for every draw the generator's distributions allow, the generated
    customer is scored on the main path, never by the [except] branch, and
    gets a health score between 0 and 100. *)
Theorem generated_customer_is_scored f now dr :
  valid_draws now dr ->
  exists r, score_body f now (generated_customer dr) = Ok r /\
    calculate_health_score f now (generated_customer dr) = r /\
    0 <= Qof (health_score r) /\ Qof (health_score r) <= 100 /\
    dom (score_breakdown r)
      = ({[ "recency"; "frequency"; "monetary"; "support"; "rating" ]} : gset string).
Proof.
  intros Hvalid.
  destruct (generated_customer_in_data_model f now dr Hvalid)
    as (days & n & s & t & a & Hd & Hnum & Hdom & _).
  exists (assessment_of days n s t a).
  pose proof (score_body_numeric f now _ days n s t a Hd Hnum) as E.
  split; [exact E|]. split; [by apply calculate_health_score_Ok|].
  destruct (total_of_range days n s t a Hdom) as [T0 T100].
  cbn [health_score score_breakdown assessment_of].
  split; [by apply (round2_lower 0)|]. split; [by apply (round2_upper 100)|].
  apply dom_breakdown_of.
Qed.

Lemma sample_draw_valid : valid_draws sample_now sample_draw.
Proof.
  split; [|split].
  - repeat constructor; cbn; try discriminate; vm_compute; discriminate.
  - cbn. lia.
  - repeat constructor; cbn; lia.
Defined.

Lemma generated_customer_is_scored_witness :
  exists r, score_body sample_fromisoformat sample_now (generated_customer sample_draw)
            = Ok r /\
    calculate_health_score sample_fromisoformat sample_now (generated_customer sample_draw)
      = r /\
    0 <= Qof (health_score r) /\ Qof (health_score r) <= 100 /\
    dom (score_breakdown r)
      = ({[ "recency"; "frequency"; "monetary"; "support"; "rating" ]} : gset string).
Proof.
  exact (generated_customer_is_scored sample_fromisoformat sample_now sample_draw
           sample_draw_valid).
Defined.

Lemma scalars_update_lookup (c : gmap string pyval) h k :
  scalars (dict_update (DVal <$> c) (health_data h)) !! k
  = match health_data h !! k with
    | Some (DVal v) => Some v
    | Some (DDict _) => None
    | None => c !! k
    end.
Proof.
  unfold scalars, dict_update. rewrite lookup_omap, lookup_union, lookup_fmap.
  destruct (health_data h !! k) as [[v|m]|]; destruct (c !! k); reflexivity.
Qed.

(** X20: merging the assessment into the customer keeps every field of the
    customer and adds the four keys of the assessment, which replace any
    entry of the same name. *)
Theorem scored_document_fields (c : gmap string pyval) h :
  let doc := dict_update (DVal <$> c) (health_data h) in
  doc !! "health_score" = Some (DVal (PNum (health_score h))) /\
  doc !! "churn_risk" = Some (DVal (PStr (churn_risk h))) /\
  doc !! "lifetime_value" = Some (DVal (PNum (lifetime_value h))) /\
  doc !! "score_breakdown" = Some (DDict (score_breakdown h)) /\
  (forall k, k ∉ ({[ "health_score"; "churn_risk"; "lifetime_value";
                     "score_breakdown" ]} : gset string) ->
     doc !! k = DVal <$> c !! k) /\
  dom doc = dom c ∪ {[ "health_score"; "churn_risk"; "lifetime_value";
                      "score_breakdown" ]}.
Proof.
  cbv zeta. unfold dict_update.
  assert (Hdom : dom (health_data h)
     = ({[ "health_score"; "churn_risk"; "lifetime_value"; "score_breakdown" ]}
        : gset string)).
  { unfold health_data. rewrite !dom_insert_L, dom_singleton_L.
    apply set_eq. intros x. rewrite !elem_of_union, !elem_of_singleton. tauto. }
  repeat split.
  - rewrite lookup_union, lookup_fmap.
    change (health_data h !! "health_score")
      with (Some (DVal (PNum (health_score h)))).
    by destruct (c !! "health_score").
  - rewrite lookup_union, lookup_fmap.
    change (health_data h !! "churn_risk") with (Some (DVal (PStr (churn_risk h)))).
    by destruct (c !! "churn_risk").
  - rewrite lookup_union, lookup_fmap.
    change (health_data h !! "lifetime_value")
      with (Some (DVal (PNum (lifetime_value h)))).
    by destruct (c !! "lifetime_value").
  - rewrite lookup_union, lookup_fmap.
    change (health_data h !! "score_breakdown")
      with (Some (DDict (score_breakdown h))).
    by destruct (c !! "score_breakdown").
  - intros k Hk. rewrite <- Hdom in Hk. apply not_elem_of_dom in Hk.
    rewrite lookup_union, Hk, lookup_fmap. by destruct (c !! k).
  - rewrite dom_union_L, dom_fmap_L, Hdom.
    apply set_eq. intros x. rewrite !elem_of_union, !elem_of_singleton. tauto.
Qed.



(** X22: the customer dictionary the generator builds, scored and updated,
    is listed by [get_customers] with the health score, tier and lifetime
    value the scorer returned and with its last order date as last
    activity. *)
Theorem scored_customer_is_listed f now dr :
  let gc := generated_customer dr in
  let h := calculate_health_score f now gc in
  exists r, customer_response (scalars (scored_customer f now dr)) = Ok r /\
    resp_customer_id r = PStr (draw_customer_id dr) /\
    resp_health_score r = PNum (health_score h) /\
    resp_churn_risk r = PStr (churn_risk h) /\
    resp_lifetime_value r = PNum (lifetime_value h) /\
    Some (resp_total_orders r) = gc !! "total_orders" /\
    Some (resp_total_spent r) = gc !! "total_spent" /\
    Some (resp_last_activity r) = gc !! "last_order_date".
Proof.
  cbv zeta. unfold scored_customer.
  set (gc := generated_customer dr).
  set (h := calculate_health_score f now gc).
  set (c := scalars (dict_update (DVal <$> gc) (health_data h))).
  assert (L : forall k, c !! k = match health_data h !! k with
                                 | Some (DVal v) => Some v
                                 | Some (DDict _) => None
                                 | None => gc !! k
                                 end) by (intros k; apply scalars_update_lookup).
  destruct (generated_customer_fields dr)
    as (Hn & Hs & _ & _ & Hl & Hcid & Hname & Hemail & Htier & Hregion).
  cbv zeta in *. fold gc in Hn, Hs, Hl, Hcid, Hname, Hemail, Htier, Hregion.
  eexists. split.
  { unfold customer_response, dict_item.
    rewrite (L "customer_id"), (L "name"), (L "email"), (L "customer_tier"),
      (L "region").
    change (health_data h !! "customer_id") with (@None docval).
    change (health_data h !! "name") with (@None docval).
    change (health_data h !! "email") with (@None docval).
    change (health_data h !! "customer_tier") with (@None docval).
    change (health_data h !! "region") with (@None docval).
    rewrite Hcid, Hname, Hemail, Htier, Hregion. reflexivity. }
  cbn. unfold dict_get. rewrite !L.
  change (health_data h !! "health_score") with (Some (DVal (PNum (health_score h)))).
  change (health_data h !! "churn_risk") with (Some (DVal (PStr (churn_risk h)))).
  change (health_data h !! "lifetime_value")
    with (Some (DVal (PNum (lifetime_value h)))).
  change (health_data h !! "total_orders") with (@None docval).
  change (health_data h !! "total_spent") with (@None docval).
  change (health_data h !! "last_order_date") with (@None docval).
  rewrite Hn, Hs, Hl. repeat split.
Qed.

(** ** The scorer: the inputs it reads *)

Lemma score_body_frame f now (cd cd' : gmap string pyval) :
  cd !! "last_order_date" = cd' !! "last_order_date" ->
  cd !! "total_orders" = cd' !! "total_orders" ->
  cd !! "total_spent" = cd' !! "total_spent" ->
  cd !! "support_tickets" = cd' !! "support_tickets" ->
  cd !! "avg_rating" = cd' !! "avg_rating" ->
  score_body f now cd = score_body f now cd'.
Proof.
  intros H1 H2 H3 H4 H5.
  unfold score_body, score_from_days, frequency_score, monetary_score,
    support_score, rating_score, dict_get.
  by rewrite H1, H2, H3, H4, H5.
Qed.

(** X23: the assessment depends on five entries of the dictionary only:
    two dictionaries that agree on [last_order_date], [total_orders],
    [total_spent], [support_tickets] and [avg_rating] get the same
    assessment, and a missing entry counts as [None] for the date and as 0
    for the numbers. *)
Theorem assessment_reads_five_entries f now (cd cd' : gmap string pyval) :
  (cd !! "last_order_date" = cd' !! "last_order_date" ->
   cd !! "total_orders" = cd' !! "total_orders" ->
   cd !! "total_spent" = cd' !! "total_spent" ->
   cd !! "support_tickets" = cd' !! "support_tickets" ->
   cd !! "avg_rating" = cd' !! "avg_rating" ->
   calculate_health_score f now cd = calculate_health_score f now cd') /\
  (forall k, k ∈ ["total_orders"; "total_spent"; "support_tickets"; "avg_rating"] ->
     cd !! k = None ->
     calculate_health_score f now cd
     = calculate_health_score f now (<[k := PNum (NInt 0)]> cd)) /\
  (cd !! "last_order_date" = None ->
   calculate_health_score f now cd
   = calculate_health_score f now (<["last_order_date" := PNone]> cd)).
Proof.
  split; [|split].
  - intros H1 H2 H3 H4 H5. unfold calculate_health_score.
    by rewrite (score_body_frame f now cd cd' H1 H2 H3 H4 H5).
  - intros k Hk Hnone. unfold calculate_health_score.
    assert (E : score_body f now cd = score_body f now (<[k := PNum (NInt 0)]> cd));
      [|by rewrite E].
    unfold score_body, score_from_days, frequency_score, monetary_score,
      support_score, rating_score, dict_get.
    repeat (apply elem_of_cons in Hk as [->|Hk]);
      [ | | | | by apply elem_of_nil in Hk];
      rewrite Hnone, lookup_insert_eq, !lookup_insert_ne by done; reflexivity.
  - intros Hnone. unfold calculate_health_score.
    assert (E : score_body f now cd
                = score_body f now (<["last_order_date" := PNone]> cd));
      [|by rewrite E].
    unfold score_body, score_from_days, frequency_score, monetary_score,
      support_score, rating_score, dict_get.
    rewrite Hnone, lookup_insert_eq, !lookup_insert_ne by done. reflexivity.
Qed.

Lemma assessment_reads_five_entries_witness :
  calculate_health_score sample_fromisoformat sample_now scenario_C
  = calculate_health_score sample_fromisoformat sample_now
      (<["total_spent" := PNum (NInt 0)]> scenario_C).
Proof.
  apply (proj1 (proj2 (assessment_reads_five_entries sample_fromisoformat sample_now
                         scenario_C scenario_C)) "total_spent").
  - set_solver.
  - reflexivity.
Defined.

(** X24: scoring the updated customer dictionary again at the same instant
    reproduces its assessment: the entries the update added are not read. *)
Theorem rescoring_is_stable f now dr :
  calculate_health_score f now (scalars (scored_customer f now dr))
  = calculate_health_score f now (generated_customer dr).
Proof.
  unfold scored_customer, calculate_health_score.
  set (gc := generated_customer dr).
  set (h := match score_body f now gc with Ok r => r | Raise _ => fallback end).
  assert (E : score_body f now (scalars (dict_update (DVal <$> gc) (health_data h)))
              = score_body f now gc); [|by rewrite E].
  apply score_body_frame; by rewrite scalars_update_lookup.
Qed.

(** ** The customer details *)

(** X25: the handler answers 404 exactly when the customer was not found (or
    is an empty document); otherwise every returned document is the retrieved
    one without its [_id] entry, group by group and in the same order. *)
Theorem customer_details_strip_id {V} (found : option (gmap string V))
    (orders tickets feedback : list (gmap string V)) :
  (get_customer_details found orders tickets feedback = HttpError 404 <->
   found = None \/ found = Some ∅) /\
  (forall customer, found = Some customer -> customer <> ∅ ->
   exists body, get_customer_details found orders tickets feedback = Http200 body /\
     details_customer body !! "_id" = None /\
     (forall k, k <> "_id" -> details_customer body !! k = customer !! k) /\
     Forall2 (fun doc out => out !! "_id" = None /\
                forall k, k <> "_id" -> out !! k = doc !! k)
       (orders ++ tickets ++ feedback)
       (details_orders body ++ details_support_tickets body ++ details_feedback body) /\
     length (details_orders body) = length orders /\
     length (details_support_tickets body) = length tickets /\
     length (details_feedback body) = length feedback).
Proof.
  assert (Hstrip : forall l : list (gmap string V),
    Forall2 (fun doc out => out !! "_id" = None /\
               forall k, k <> "_id" -> out !! k = doc !! k) l (map strip_id l)).
  { induction l as [|doc l IH]; constructor; [|exact IH].
    unfold strip_id. split; [apply lookup_delete_eq|].
    intros k Hk. by rewrite lookup_delete_ne. }
  split.
  - unfold get_customer_details. destruct found as [customer|].
    + destruct (bool_decide_reflect (dom customer = (∅ : gset string))) as [E|E].
      * split; [|done]. intros _. right. f_equal. by apply dom_empty_iff_L.
      * split; [discriminate|]. intros [H|[= ->]]; [discriminate|].
        by rewrite dom_empty_L in E.
    + split; [by left | done].
  - intros customer -> Hne. unfold get_customer_details.
    destruct (bool_decide_reflect (dom customer = (∅ : gset string))) as [E|E].
    { by apply dom_empty_iff_L in E. }
    eexists. split; [reflexivity|]. cbn.
    split; [apply lookup_delete_eq|].
    split; [intros k Hk; unfold strip_id; by rewrite lookup_delete_ne|].
    split.
    + rewrite <- !map_app. apply Hstrip.
    + by rewrite !length_map.
Qed.

Lemma customer_details_strip_id_witness :
  exists body,
    get_customer_details (Some (<["_id" := PStr "65f0"]> scenario_C))
      [ {[ "_id" := PStr "a1"; "status" := PStr "Completed" ]} ] [] []
    = Http200 body /\
    details_customer body !! "_id" = None /\
    details_customer body !! "name" = Some (PStr "Ada") /\
    details_orders body = [ {[ "status" := PStr "Completed" ]} ].
Proof.
  destruct (proj2 (customer_details_strip_id
                     (Some (<["_id" := PStr "65f0"]> scenario_C))
                     [ {[ "_id" := PStr "a1"; "status" := PStr "Completed" ]} ] [] [])
              (<["_id" := PStr "65f0"]> scenario_C) eq_refl)
    as (body & Hb & Hid & Hk & _).
  { intros E. apply (f_equal (fun m => m !! "_id")) in E. discriminate E. }
  exists body. split; [exact Hb|]. split; [exact Hid|].
  split.
  - rewrite Hk by discriminate. reflexivity.
  - injection Hb as <-. vm_compute. reflexivity.
Defined.
